(** * Forex order saga: wallet transfer engine, order state machine, retry worker

    A shallow embedding of

    - [WalletService]        (apps/wallet/src/app/wallet/wallet.service.ts),
    - [TransactionsService]  (apps/transaction/src/app/transactions/transactions.service.ts),
    - [RetryOrderConsumer]   (apps/transaction/src/app/transactions/retry-order.consumer.ts),
    - [UsersService] and [AuthService.verifyUser] (apps/auth/src/app),

    with the relational tables as lists of rows in insertion order, the
    asynchronous calls sequenced in program order, and everything the code
    cannot control (the answer of the integration service, a gRPC transport
    failure, a failing database write, the row a lookup without a key
    returns) supplied by an explicit environment. *)

From Stdlib Require Import ZArith List String Ascii Bool Lia PeanoNat DecimalString.
Import ListNotations.
Open Scope string_scope.
Open Scope list_scope.
Open Scope Z_scope.

(** ** decimal.js values

    [Decimal] of decimal.js: a finite decimal number [coef * 10^exp].  The
    library keeps the digits without trailing zeros, and every arithmetic
    method ([plus], [minus], [mul]) returns its result rounded to
    [Decimal.precision] significant digits in rounding mode [Decimal.rounding].
    The repository never reconfigures the library, so the defaults apply:
    precision 20, rounding ROUND_HALF_UP (ties away from zero).  The
    constructor does not round.  Negative zero, NaN and the infinities are not
    represented: the services only build Decimals from numeric strings. *)
Module Decimal.

Record t : Type := mk { coef : Z; exp : Z }.

Definition precision : Z := 20.

Fixpoint digits_fuel (fuel : nat) (n : Z) : Z :=
  match fuel with
  | O => 0
  | S fuel' => if n =? 0 then 0 else 1 + digits_fuel fuel' (n / 10)
  end.

(** Number of decimal digits of [|n|]; 0 for 0. *)
Definition digits (n : Z) : Z :=
  digits_fuel (S (Z.to_nat (Z.log2 (Z.abs n)))) (Z.abs n).

Fixpoint strip_fuel (fuel : nat) (c e : Z) : t :=
  match fuel with
  | O => mk c e
  | S fuel' =>
      if c =? 0 then mk 0 0
      else if c mod 10 =? 0 then strip_fuel fuel' (c / 10) (e + 1)
      else mk c e
  end.

(** The canonical form: no trailing zero in the coefficient, zero is 0e0. *)
Definition normalise (d : t) : t :=
  strip_fuel (S (Z.to_nat (Z.log2 (Z.abs (coef d))))) (coef d) (exp d).

(** [new Decimal(v)]: the digits are kept as they are, never rounded. *)
Definition dec (c e : Z) : t := normalise (mk c e).

(** Round to [sd] significant digits, ROUND_HALF_UP. *)
Definition round (sd : Z) (d : t) : t :=
  let k := digits (coef d) - sd in
  if k <=? 0 then d
  else
    let p := 10 ^ k in
    let q := Z.abs (coef d) / p in
    let r := Z.abs (coef d) mod p in
    let q' := if p <=? 2 * r then q + 1 else q in
    mk (Z.sgn (coef d) * q') (exp d + k).

(** [finalise(x, Ctor.precision, Ctor.rounding)]. *)
Definition finalise (d : t) : t := normalise (round precision d).

(** The coefficient of [d] once it is written with exponent [e <= exp d]. *)
Definition scaled (e : Z) (d : t) : Z := coef d * 10 ^ (exp d - e).

Definition exact_plus (a b : t) : t :=
  let e := Z.min (exp a) (exp b) in mk (scaled e a + scaled e b) e.

Definition exact_mul (a b : t) : t :=
  mk (coef a * coef b) (exp a + exp b).

Definition neg (a : t) : t := mk (- coef a) (exp a).

Definition plus (a b : t) : t := finalise (exact_plus a b).
Definition minus (a b : t) : t := finalise (exact_plus a (neg b)).
Definition mul (a b : t) : t := finalise (exact_mul a b).

Definition lessThan (a b : t) : bool :=
  let e := Z.min (exp a) (exp b) in scaled e a <? scaled e b.


Definition isNeg (a : t) : bool := coef a <? 0.

Definition string_of_nat_Z (n : Z) : string :=
  NilZero.string_of_uint (N.to_uint (Z.to_N n)).

Fixpoint zeros (n : nat) : string :=
  match n with O => "" | S n' => String "0" (zeros n') end.

Definition pad_left (width : nat) (s : string) : string :=
  String.append (zeros (Nat.sub width (String.length s))) s.

(** [x.toFixed(dp)]: rounded half-up at [dp] decimal places, exactly [dp]
    digits after the point; the sign is the sign of [x]. *)
Definition toFixed (dp : nat) (d : t) : string :=
  let e := - Z.of_nat dp in
  let a := Z.abs (coef d) in
  let n :=
    if e <=? exp d then a * 10 ^ (exp d - e)
    else
      let p := 10 ^ (e - exp d) in
      if p <=? 2 * (a mod p) then a / p + 1 else a / p in
  let unit := 10 ^ Z.of_nat dp in
  let body :=
    match dp with
    | O => string_of_nat_Z n
    | _ => String.concat "" [string_of_nat_Z (n / unit); ".";
                             pad_left dp (string_of_nat_Z (n mod unit))]
    end in
  if isNeg d then String "-" body else body.

End Decimal.

(** ** gRPC status codes and errors *)

(** [status] of @grpc/grpc-js. *)
Module status.
Inductive t : Type :=
| OK | CANCELLED | UNKNOWN | INVALID_ARGUMENT | DEADLINE_EXCEEDED | NOT_FOUND
| ALREADY_EXISTS | PERMISSION_DENIED | RESOURCE_EXHAUSTED
| FAILED_PRECONDITION | ABORTED | OUT_OF_RANGE | UNIMPLEMENTED | INTERNAL
| UNAVAILABLE | DATA_LOSS | UNAUTHENTICATED.
End status.

(** [RpcException]: what a service throws and what its gRPC client sees in
    [err.code] and [err.message]. *)
Record RpcException : Type := { code : status.t; message : string }.

(** A promise that settled: resolved with a value or rejected with an
    [RpcException]. *)
Inductive Result (A : Type) : Type :=
| Ok (value : A)
| Err (error : RpcException).
Arguments Ok {A} value.
Arguments Err {A} error.

(** A handler that rejects with something that is not an [RpcException] (a
    [DecimalError], say): the exception filter of Nest answers the call with
    the message 'Internal server error' and no code, which gRPC sends as
    UNKNOWN. *)
Definition unknownException : RpcException :=
  {| code := status.UNKNOWN; message := "Internal server error" |}.

(** ** Tables

    A table is the list of its rows in insertion order; the primary key is a
    column of the row, as in the entities.  Generated uuids are modelled by
    numbers that no row of the table carries yet. *)
Section Table.
Context {R : Type} (key : R -> nat).

(** [findOne({ where: { id } })]. *)
Definition findById (i : nat) (tbl : list R) : option R :=
  find (fun r => Nat.eqb (key r) i) tbl.

(** [update(id, partial)]: every row with that key, none when it is absent. *)
Definition updateById (i : nat) (f : R -> R) (tbl : list R) : list R :=
  map (fun r => if Nat.eqb (key r) i then f r else r) tbl.

(** A key above every key of the table. *)
Definition freshId (tbl : list R) : nat :=
  fold_right (fun r acc => Nat.max (S (key r)) acc) O tbl.

(** [save(entity)] of a loaded entity: UPDATE when the key exists, INSERT
    otherwise. *)
Definition saveRow (r : R) (tbl : list R) : list R :=
  match findById (key r) tbl with
  | Some _ => updateById (key r) (fun _ => r) tbl
  | None => tbl ++ [r]
  end.
End Table.

(** [findOneOrFail({ where })] on columns that are no key: the query has no
    ORDER BY, so when several rows match, which one comes back is the
    database's choice (the physical order of the rows, which an UPDATE
    changes) and not the program's.  [pick] is that choice: the index, modulo
    their number, among the matching rows.  [None] when no row matches. *)
Definition findOneWhere {R : Type} (pick : nat) (where' : R -> bool)
    (tbl : list R) : option R :=
  let rows := filter where' tbl in
  nth_error rows (Nat.modulo pick (List.length rows)).

(** ** Database transactions

    [dataSource.transaction(async (manager) => ...)]: the body runs on the
    working copy of the database; when one of its statements raises, the body
    stops and the working copy is dropped.  [fault = Some k] makes the [k]-th
    write of the body (counted from 0) raise. *)
Section Transaction.
Context {Db : Type}.

Definition Txn (A : Type) : Type :=
  option nat -> nat -> Db -> option (A * nat * Db).

Definition ret {A} (a : A) : Txn A := fun _ n db => Some (a, n, db).

Definition bind {A B} (m : Txn A) (k : A -> Txn B) : Txn B :=
  fun fault n db =>
    match m fault n db with
    | Some (a, n', db') => k a fault n' db'
    | None => None
    end.

Definition read {A} (f : Db -> A) : Txn A := fun _ n db => Some (f db, n, db).

Definition raises (fault : option nat) (n : nat) : bool :=
  match fault with Some k => Nat.eqb k n | None => false end.

Definition write {A} (f : Db -> A * Db) : Txn A :=
  fun fault n db =>
    if raises fault n then None
    else let '(a, db') := f db in Some (a, S n, db').

(** Commit on success, roll back on error. *)
Definition transaction {A} (body : Txn A) (fault : option nat) (db : Db)
  : option A * Db :=
  match body fault O db with
  | Some (a, _, db') => (Some a, db')
  | None => (None, db)
  end.
End Transaction.

Declare Scope txn_scope.
Delimit Scope txn_scope with txn.
Notation "x <- m ;; k" := (bind m (fun x => k))
  (at level 100, m at next level, right associativity) : txn_scope.
Notation "m ;;; k" := (bind m (fun _ => k))
  (at level 100, right associativity) : txn_scope.

(** ** Wallet service entities (apps/wallet/src/typeorm/models) *)

Module TransactionType.
Inductive t : Type := CREDIT | DEBIT | WITHDRAW | FUND.
End TransactionType.

Module Wallet.
Record t : Type := mk {
  id : nat;
  userId : string;
  currency : string;
  balance : Decimal.t
}.
Definition with_id (i : nat) (w : t) : t :=
  mk i (userId w) (currency w) (balance w).
Definition with_balance (b : Decimal.t) (w : t) : t :=
  mk (id w) (userId w) (currency w) b.
End Wallet.

Module WalletTransaction.
Record t : Type := mk {
  id : nat;
  wallet : nat;                 (* walletId, the foreign key *)
  type : TransactionType.t;
  amount : Decimal.t;
  currency : string;
  description : string
}.
Definition with_id (i : nat) (x : t) : t :=
  mk i (wallet x) (type x) (amount x) (currency x) (description x).
End WalletTransaction.

(** The wallet service's database. *)
Record WalletDb : Type := {
  wallets : list Wallet.t;
  walletTransactions : list WalletTransaction.t
}.

Definition set_wallets (ws : list Wallet.t) (db : WalletDb) : WalletDb :=
  {| wallets := ws; walletTransactions := walletTransactions db |}.

Definition set_walletTransactions (ts : list WalletTransaction.t) (db : WalletDb)
  : WalletDb :=
  {| wallets := wallets db; walletTransactions := ts |}.

(** [interface WalletEntity]. *)
Record WalletEntity : Type := {
  we_walletId : nat;
  we_userId : string;
  we_balance : string;
  we_currency : string
}.

(** Requests and responses of libs/grpc.  An amount travels as the string of
    a Decimal and is read back with [new Decimal(...)]; the constructor keeps
    every digit, so the wire carries the Decimal itself here. *)
Record WalletAmountRequest : Type := {
  wr_walletId : nat;
  wr_userId : string;
  wr_amount : Decimal.t
}.

Record CreateWalletRequest : Type := {
  cw_userId : string;
  cw_currency : string
}.

Record GetWalletBalanceRequest : Type := {
  gb_userId : string;
  gb_walletCurrency : string
}.

Record GetAllUserWalletsRequest : Type := {
  ga_userId : string
}.

Record BuyForexRequest : Type := {
  bf_userId : string;
  bf_baseCurrency : string;
  bf_targetCurrency : string;
  bf_amount : Decimal.t
}.

Record BuyForexResponse : Type := {
  br_message : string;
  br_success : bool;
  br_exchangeRate : Decimal.t;
  br_targetAmount : Decimal.t
}.

(** ** WalletService (apps/wallet/src/app/wallet/wallet.service.ts) *)

(** What [integrationService.convertCurrency] gives: the call fails, or it
    answers with an [exchangeRate] that is a numeric string or is not (the
    integration service passes on what its cache holds for the pair, which may
    be nothing). *)
Inductive ConvertCurrencyReply : Type :=
| CallFailed
| Replied (exchangeRate : option Decimal.t).

(** What the wallet service cannot control during one call: the answer of the
    integration service, the database write that raises, if any, and, for
    each currency, which of the wallets in that currency a lookup by currency
    alone returns. *)
Record WalletEnv : Type := {
  convertCurrency : ConvertCurrencyReply;
  fault : option nat;
  firstRow : string -> nat
}.

(** The rate of the answer, when the answer has one. *)
Definition rate (env : WalletEnv) : option Decimal.t :=
  match convertCurrency env with
  | Replied (Some exchangeRate) => Some exchangeRate
  | _ => None
  end.

Module WalletService.

Definition createWalletEntity (wallet : Wallet.t) : WalletEntity :=
  {| we_walletId := Wallet.id wallet;
     we_userId := Wallet.userId wallet;
     we_balance := Decimal.toFixed 2 (Wallet.balance wallet);
     we_currency := Wallet.currency wallet |}.

Definition validateSufficientFund (wallet : Wallet.t) (amount : Decimal.t)
  : Result bool :=
  if Decimal.lessThan (Wallet.balance wallet) amount
  then Err {| code := status.INVALID_ARGUMENT; message := "Insufficient balance" |}
  else Ok true.

(** [manager.save(wallet)] of a wallet that was loaded before. *)
Definition saveWallet (w : Wallet.t) : Txn unit :=
  write (fun db => (tt, set_wallets (saveRow Wallet.id w (wallets db)) db)).

(** [manager.save(wallet)] of a wallet that was just created: the row gets
    its generated id. *)
Definition insertWallet (w : Wallet.t) : Txn Wallet.t :=
  write (fun db =>
    let w' := Wallet.with_id (freshId Wallet.id (wallets db)) w in
    (w', set_wallets (wallets db ++ [w']) db)).

Definition insertWalletTransaction (x : WalletTransaction.t) : Txn unit :=
  write (fun db =>
    let x' := WalletTransaction.with_id
                (freshId WalletTransaction.id (walletTransactions db)) x in
    (tt, set_walletTransactions (walletTransactions db ++ [x']) db)).

(** [walletTxnRepository.create({...})]: the id is generated on insert. *)
Definition createWalletTransaction (wallet : Wallet.t)
    (type : TransactionType.t) (amount : Decimal.t) (description : string)
  : WalletTransaction.t :=
  WalletTransaction.mk O (Wallet.id wallet) type amount
    (Wallet.currency wallet) description.

Definition handleWalletTransaction
    (request : WalletAmountRequest) (type : TransactionType.t)
    (description : string)
    (updateBalance : Decimal.t -> Decimal.t -> Decimal.t)
    (validate : Wallet.t -> Decimal.t -> Result bool)
    (fault : option nat) (db : WalletDb) : Result WalletEntity * WalletDb :=
  match find (fun w => Nat.eqb (Wallet.id w) (wr_walletId request)
                       && String.eqb (Wallet.userId w) (wr_userId request))
             (wallets db) with
  | None =>
      (Err {| code := status.NOT_FOUND;
              message := String.concat ""
                ["Could not find wallet [";
                 Decimal.string_of_nat_Z (Z.of_nat (wr_walletId request));
                 "] for user ["; wr_userId request; "]"] |}, db)
  | Some wallet =>
      let amount := wr_amount request in
      match validate wallet amount with
      | Err e => (Err e, db)
      | Ok _ =>
          let wallet' :=
            Wallet.with_balance (updateBalance (Wallet.balance wallet) amount)
                                wallet in
          let walletTransaction :=
            createWalletTransaction wallet' type amount description in
          match transaction
                  (saveWallet wallet' ;;;
                   insertWalletTransaction walletTransaction)%txn
                  fault db with
          | (None, db') =>
              (Err {| code := status.ABORTED;
                      message := "Could not process wallet transaction. Please try again later." |},
               db')
          | (Some _, db') => (Ok (createWalletEntity wallet'), db')
          end
      end
  end.

(** The [catchError] turns a failed call into ABORTED.  An answer is not
    checked: [new Decimal(data.exchangeRate)] stands after the [tryCatch] and
    throws a [DecimalError] when the string is not a number. *)
Definition fetchExchangeRate (env : WalletEnv) : Result Decimal.t :=
  match convertCurrency env with
  | CallFailed => Err {| code := status.ABORTED; message := "" |}
  | Replied None => Err unknownException
  | Replied (Some exchangeRate) => Ok exchangeRate
  end.

Definition fundWallet (request : WalletAmountRequest) :=
  handleWalletTransaction request TransactionType.FUND "Fund wallet"
    (fun balance amount => Decimal.plus balance amount)
    (fun _ _ => Ok true).

Definition withdrawWallet (request : WalletAmountRequest) :=
  handleWalletTransaction request TransactionType.WITHDRAW
    "Withdrawal from wallet"
    (fun balance amount => Decimal.minus balance amount)
    validateSufficientFund.

Definition createWallet (request : CreateWalletRequest) (db : WalletDb)
  : Result WalletEntity * WalletDb :=
  match find (fun w => String.eqb (Wallet.userId w) (cw_userId request)
                       && String.eqb (Wallet.currency w) (cw_currency request))
             (wallets db) with
  | Some existingWallet => (Ok (createWalletEntity existingWallet), db)
  | None =>
      let wallet :=
        Wallet.mk (freshId Wallet.id (wallets db)) (cw_userId request)
                  (cw_currency request) (Decimal.dec 0 0) in
      (Ok (createWalletEntity wallet), set_wallets (wallets db ++ [wallet]) db)
  end.

Definition getAllUserWallets (request : GetAllUserWalletsRequest)
    (db : WalletDb) : Result (list WalletEntity) :=
  let found :=
    filter (fun w => String.eqb (Wallet.userId w) (ga_userId request))
           (wallets db) in
  match found with
  | [] => Err {| code := status.NOT_FOUND; message := "User has no wallet" |}
  | _ => Ok (map createWalletEntity found)
  end.

Definition getWalletBalance (request : GetWalletBalanceRequest) (db : WalletDb)
  : Result WalletEntity * WalletDb :=
  match find (fun w => String.eqb (Wallet.userId w) (gb_userId request)
                       && String.eqb (Wallet.currency w)
                                     (gb_walletCurrency request))
             (wallets db) with
  | None =>
      createWallet {| cw_currency := gb_walletCurrency request;
                      cw_userId := gb_userId request |} db
  | Some wallet => (Ok (createWalletEntity wallet), db)
  end.

(** The lookup is [where: { currency: request.targetCurrency }]. *)
Definition getOrCreateTargetWalletInTxn (env : WalletEnv)
    (request : BuyForexRequest) : Txn Wallet.t :=
  (found <- read (fun db =>
              findOneWhere (firstRow env (bf_targetCurrency request))
                (fun w => String.eqb (Wallet.currency w)
                                     (bf_targetCurrency request))
                (wallets db)) ;;
   match found with
   | None =>
       insertWallet (Wallet.mk O (bf_userId request)
                               (bf_targetCurrency request) (Decimal.dec 0 0))
   | Some data => ret data
   end)%txn.

(** The lookup is [where: { currency }]. *)
Definition findBaseWalletOrFail (env : WalletEnv) (currency : string)
    (db : WalletDb) : Result Wallet.t :=
  match findOneWhere (firstRow env currency)
          (fun w => String.eqb (Wallet.currency w) currency) (wallets db) with
  | None => Err {| code := status.NOT_FOUND;
                   message := "Could not find base wallet" |}
  | Some data => Ok data
  end.

(** The body of the transaction of [buyForex]. *)
Definition buyForexTxn (env : WalletEnv) (request : BuyForexRequest)
    (baseWallet : Wallet.t) (amount targetWalletAmount : Decimal.t)
  : Txn unit :=
  (targetWallet <- getOrCreateTargetWalletInTxn env request ;;
   let baseWallet' :=
     Wallet.with_balance (Decimal.minus (Wallet.balance baseWallet) amount)
                         baseWallet in
   let targetWallet' :=
     Wallet.with_balance
       (Decimal.plus (Wallet.balance targetWallet) targetWalletAmount)
       targetWallet in
   let baseWalletTxn :=
     createWalletTransaction baseWallet' TransactionType.DEBIT amount
                             "Debit for forex purchase" in
   let targetWalletTxn :=
     createWalletTransaction targetWallet' TransactionType.CREDIT
                             targetWalletAmount "Credit for forex purchase" in
   saveWallet baseWallet' ;;;
   saveWallet targetWallet' ;;;
   insertWalletTransaction baseWalletTxn ;;;
   insertWalletTransaction targetWalletTxn)%txn.

Definition buyForex (request : BuyForexRequest) (env : WalletEnv)
    (db : WalletDb) : Result BuyForexResponse * WalletDb :=
  match findBaseWalletOrFail env (bf_baseCurrency request) db with
  | Err e => (Err e, db)
  | Ok baseWallet =>
      let amount := bf_amount request in
      match validateSufficientFund baseWallet amount with
      | Err e => (Err e, db)
      | Ok _ =>
          match fetchExchangeRate env with
          | Err e => (Err e, db)
          | Ok exchangeRate =>
              let targetWalletAmount := Decimal.mul amount exchangeRate in
              match transaction
                      (buyForexTxn env request baseWallet amount
                                   targetWalletAmount)
                      (fault env) db with
              | (None, db') =>
                  (Err {| code := status.ABORTED;
                          message := "Could not complete forex purchase try again later" |},
                   db')
              | (Some _, db') =>
                  (Ok {| br_message := "success";
                         br_success := true;
                         br_exchangeRate := exchangeRate;
                         br_targetAmount := targetWalletAmount |},
                   db')
              end
          end
      end
  end.

End WalletService.

(** ** Transaction service entities (apps/transaction/src/typeorm/models) *)

Module OrderType.
Inductive t : Type := BUY | SELL.
End OrderType.

Module OrderStatus.
Inductive t : Type := PENDING | COMPLETED | FAILED.
End OrderStatus.

Module TransactionStatus.
Inductive t : Type := INITIATED | COMPLETED | FAILED.
End TransactionStatus.

Module ForexOrder.
Record t : Type := mk {
  id : nat;
  userId : string;
  userEmail : string;
  type : OrderType.t;
  baseCurrency : string;
  targetCurrency : string;
  amount : Decimal.t;
  status : OrderStatus.t;
  retryAttempts : nat;
  errorStatus : option status.t;
  errorMessage : option string
}.
Definition with_id (i : nat) (o : t) : t :=
  mk i (userId o) (userEmail o) (type o) (baseCurrency o) (targetCurrency o)
     (amount o) (status o) (retryAttempts o) (errorStatus o) (errorMessage o).
Definition with_status (s : OrderStatus.t) (o : t) : t :=
  mk (id o) (userId o) (userEmail o) (type o) (baseCurrency o)
     (targetCurrency o) (amount o) s (retryAttempts o) (errorStatus o)
     (errorMessage o).
Definition with_retryAttempts (n : nat) (o : t) : t :=
  mk (id o) (userId o) (userEmail o) (type o) (baseCurrency o)
     (targetCurrency o) (amount o) (status o) n (errorStatus o)
     (errorMessage o).
Definition with_error (c : status.t) (m : string) (o : t) : t :=
  mk (id o) (userId o) (userEmail o) (type o) (baseCurrency o)
     (targetCurrency o) (amount o) (status o) (retryAttempts o) (Some c)
     (Some m).
End ForexOrder.

Module ForexTransaction.
Record t : Type := mk {
  id : nat;
  userId : string;
  orderId : nat;
  baseCurrency : string;
  targetCurrency : string;
  amount : Decimal.t;
  exchangeRate : option Decimal.t;
  targetAmount : option Decimal.t;
  status : TransactionStatus.t;
  errorStatus : option status.t;
  errorMessage : option string
}.
Definition with_id (i : nat) (x : t) : t :=
  mk i (userId x) (orderId x) (baseCurrency x) (targetCurrency x) (amount x)
     (exchangeRate x) (targetAmount x) (status x) (errorStatus x)
     (errorMessage x).
Definition with_status (s : TransactionStatus.t) (x : t) : t :=
  mk (id x) (userId x) (orderId x) (baseCurrency x) (targetCurrency x)
     (amount x) (exchangeRate x) (targetAmount x) s (errorStatus x)
     (errorMessage x).
Definition with_error (c : status.t) (m : string) (x : t) : t :=
  mk (id x) (userId x) (orderId x) (baseCurrency x) (targetCurrency x)
     (amount x) (exchangeRate x) (targetAmount x) (status x) (Some c) (Some m).
Definition with_result (r a : Decimal.t) (x : t) : t :=
  mk (id x) (userId x) (orderId x) (baseCurrency x) (targetCurrency x)
     (amount x) (Some r) (Some a) (status x) (errorStatus x) (errorMessage x).
End ForexTransaction.

(** [interface RetryOrderEvent] (retry-order.producer.ts). *)
Record RetryOrderEvent : Type := {
  orderId : nat;
  transactionId : nat;
  errMessage : string;
  errCode : status.t
}.

(** [NotificationEmailEvent] of libs/microservice-client. *)
Record NotificationEmailEvent : Type := {
  html : string;
  text : string;
  subject : string;
  to : string
}.

(** The whole system: the wallet service's database, the two tables of the
    transaction service, the BullMQ queue [forex_retry_queue] (oldest job
    first) and the e-mails handed to the notification service (oldest
    first). *)
Record State : Type := {
  walletDb : WalletDb;
  forexOrders : list ForexOrder.t;
  forexTransactions : list ForexTransaction.t;
  retryQueue : list RetryOrderEvent;
  notifications : list NotificationEmailEvent
}.

Definition set_walletDb (w : WalletDb) (st : State) : State :=
  {| walletDb := w; forexOrders := forexOrders st;
     forexTransactions := forexTransactions st; retryQueue := retryQueue st;
     notifications := notifications st |}.

Definition set_forexOrders (os : list ForexOrder.t) (st : State) : State :=
  {| walletDb := walletDb st; forexOrders := os;
     forexTransactions := forexTransactions st; retryQueue := retryQueue st;
     notifications := notifications st |}.

Definition set_forexTransactions (ts : list ForexTransaction.t) (st : State)
  : State :=
  {| walletDb := walletDb st; forexOrders := forexOrders st;
     forexTransactions := ts; retryQueue := retryQueue st;
     notifications := notifications st |}.

Definition set_retryQueue (q : list RetryOrderEvent) (st : State) : State :=
  {| walletDb := walletDb st; forexOrders := forexOrders st;
     forexTransactions := forexTransactions st; retryQueue := q;
     notifications := notifications st |}.

Definition set_notifications (ns : list NotificationEmailEvent) (st : State)
  : State :=
  {| walletDb := walletDb st; forexOrders := forexOrders st;
     forexTransactions := forexTransactions st; retryQueue := retryQueue st;
     notifications := ns |}.

(** What one execution of an order meets: a gRPC call to the wallet service
    that fails on the way ([transport = Some e], the error the client library
    raises; the wallet service is not reached), or else the wallet service's
    own environment.  A call that reaches the wallet service is answered: a
    reply lost on the way back is not among the cases. *)
Record Env : Type := {
  transport : option RpcException;
  walletEnv : WalletEnv
}.

(** The number and the name of a status code, as the enum [status] of
    @grpc/grpc-js has them. *)
Definition statusNumber (c : status.t) : string :=
  match c with
  | status.OK => "0" | status.CANCELLED => "1" | status.UNKNOWN => "2"
  | status.INVALID_ARGUMENT => "3" | status.DEADLINE_EXCEEDED => "4"
  | status.NOT_FOUND => "5" | status.ALREADY_EXISTS => "6"
  | status.PERMISSION_DENIED => "7" | status.RESOURCE_EXHAUSTED => "8"
  | status.FAILED_PRECONDITION => "9" | status.ABORTED => "10"
  | status.OUT_OF_RANGE => "11" | status.UNIMPLEMENTED => "12"
  | status.INTERNAL => "13" | status.UNAVAILABLE => "14"
  | status.DATA_LOSS => "15" | status.UNAUTHENTICATED => "16"
  end.

Definition statusName (c : status.t) : string :=
  match c with
  | status.OK => "OK" | status.CANCELLED => "CANCELLED"
  | status.UNKNOWN => "UNKNOWN"
  | status.INVALID_ARGUMENT => "INVALID_ARGUMENT"
  | status.DEADLINE_EXCEEDED => "DEADLINE_EXCEEDED"
  | status.NOT_FOUND => "NOT_FOUND" | status.ALREADY_EXISTS => "ALREADY_EXISTS"
  | status.PERMISSION_DENIED => "PERMISSION_DENIED"
  | status.RESOURCE_EXHAUSTED => "RESOURCE_EXHAUSTED"
  | status.FAILED_PRECONDITION => "FAILED_PRECONDITION"
  | status.ABORTED => "ABORTED" | status.OUT_OF_RANGE => "OUT_OF_RANGE"
  | status.UNIMPLEMENTED => "UNIMPLEMENTED" | status.INTERNAL => "INTERNAL"
  | status.UNAVAILABLE => "UNAVAILABLE" | status.DATA_LOSS => "DATA_LOSS"
  | status.UNAUTHENTICATED => "UNAUTHENTICATED"
  end.

(** The details gRPC sends for a rejected call: the message of the
    exception, and 'Unknown Error' for an exception thrown without one (the
    [RpcException({ code })] of [fetchExchangeRate], whose message is empty
    here). *)
Definition statusDetails (e : RpcException) : string :=
  if String.eqb (message e) "" then "Unknown Error" else message e.

(** The error a gRPC client gets for a call the service rejected: the code
    of the service's exception, and as [err.message] not the message of the
    exception (that is [err.details]) but '<number> <NAME>: <details>'. *)
Definition callErrorFromStatus (e : RpcException) : RpcException :=
  {| code := code e;
     message := String.concat ""
       [statusNumber (code e); " "; statusName (code e); ": ";
        statusDetails e] |}.

(** The answer of a service as its client receives it. *)
Definition received {A : Type} (answer : Result A) : Result A :=
  match answer with
  | Ok value => Ok value
  | Err e => Err (callErrorFromStatus e)
  end.

(** [this.walletService.buyForex(request)] seen from the client. *)
Definition walletClient_buyForex (env : Env) (request : BuyForexRequest)
    (db : WalletDb) : Result BuyForexResponse * WalletDb :=
  match transport env with
  | Some e => (Err e, db)
  | None =>
      let '(answer, db') :=
        WalletService.buyForex request (walletEnv env) db in
      (received answer, db')
  end.

(** [this.walletService.fundWallet(request)] and
    [this.walletService.withdrawWallet(request)] seen from the client. *)
Definition walletClient_fundWallet (env : Env) (request : WalletAmountRequest)
    (db : WalletDb) : Result WalletEntity * WalletDb :=
  match transport env with
  | Some e => (Err e, db)
  | None =>
      let '(answer, db') :=
        WalletService.fundWallet request (fault (walletEnv env)) db in
      (received answer, db')
  end.

Definition walletClient_withdrawWallet (env : Env)
    (request : WalletAmountRequest) (db : WalletDb)
  : Result WalletEntity * WalletDb :=
  match transport env with
  | Some e => (Err e, db)
  | None =>
      let '(answer, db') :=
        WalletService.withdrawWallet request (fault (walletEnv env)) db in
      (received answer, db')
  end.

(** The HTTP exceptions the services throw. *)
Inductive HttpException : Type :=
| NotFoundException (message : string)
| BadRequestException (message : string)
| InternalServerErrorException (message : string)
| UnauthorizedException (message : string).

(** A call that returned or threw. *)
Inductive Outcome (A : Type) : Type :=
| Returned (value : A)
| Thrown (error : HttpException).
Arguments Returned {A} value.
Arguments Thrown {A} error.

(** [GrpcUser]. *)
Record GrpcUser : Type := {
  user_id : string;
  user_email : string
}.

(** The payload of a funding or a withdrawal: [wp_amount] is the number
    string of the request and [wp_decimal] the Decimal the wallet service
    reads from it. *)
Record WalletPayload : Type := {
  wp_walletId : nat;
  wp_amount : string;
  wp_decimal : Decimal.t
}.

(** ** TransactionsService (apps/transaction/src/app/transactions) *)

(** What [processForexPurchase] resolves with. *)
Record Reply : Type := {
  reply_message : string;
  forexOrderId : nat;
  forexTransactionId : nat
}.

(** [BuyForexServiceOptions]. *)
Record BuyForexServiceOptions : Type := {
  opt_baseCurrency : string;
  opt_targetCurrency : string;
  opt_amount : Decimal.t;
  opt_userId : string;
  opt_userEmail : string
}.

Module TransactionsService.

Definition uuid (i : nat) : string := Decimal.string_of_nat_Z (Z.of_nat i).

Inductive TransactionEmail : Type :=
| failure (userEmail targetCurrency : string) (orderId transactionId : nat)
          (baseCurrency : string)
| success (userEmail targetCurrency : string) (orderId transactionId : nat)
          (baseCurrency targetAmount exchangeRate : string).

Definition createTransactionEmail (options : TransactionEmail)
  : NotificationEmailEvent :=
  match options with
  | failure userEmail targetCurrency orderId _ _ =>
      {| html := "";
         text := String.concat ""
           ["Your purchase of "; targetCurrency; ", with order id: ";
            uuid orderId; " failed"];
         subject := "Forex purchase failed";
         to := userEmail |}
  | success userEmail targetCurrency orderId _ baseCurrency targetAmount
            exchangeRate =>
      {| html := "";
         text := String.concat ""
           ["Your purchase of "; targetCurrency; ", with order id: ";
            uuid orderId; " succeeded. Your "; targetCurrency;
            " wallet was credited "; targetAmount;
            " at an exchange rate of 1 "; baseCurrency; " --> ";
            exchangeRate; " "; targetCurrency];
         subject := "Forex purchase completed";
         to := userEmail |}
  end.

Definition notifyUser (e : NotificationEmailEvent) (st : State) : State :=
  set_notifications (notifications st ++ [e]) st.

(** [retryOrerProducer.enqueue(event)]. *)
Definition enqueue (e : RetryOrderEvent) (st : State) : State :=
  set_retryQueue (retryQueue st ++ [e]) st.

Definition failOrder (forexOrder : ForexOrder.t) (forexTxn : ForexTransaction.t)
    (errMessage : string) (errCode : status.t) (hardFail : bool) (st : State)
  : Reply * State :=
  let st1 :=
    set_forexTransactions
      (updateById ForexTransaction.id (ForexTransaction.id forexTxn)
         (fun x => ForexTransaction.with_error errCode errMessage
                     (ForexTransaction.with_status TransactionStatus.FAILED x))
         (forexTransactions st)) st in
  if hardFail then
    let st2 :=
      set_forexOrders
        (updateById ForexOrder.id (ForexOrder.id forexOrder)
           (fun o => ForexOrder.with_error errCode errMessage
                       (ForexOrder.with_status OrderStatus.FAILED o))
           (forexOrders st1)) st1 in
    let emailPayload :=
      createTransactionEmail
        (failure (ForexOrder.userEmail forexOrder)
                 (ForexOrder.targetCurrency forexOrder)
                 (ForexOrder.id forexOrder) (ForexTransaction.id forexTxn)
                 (ForexOrder.baseCurrency forexOrder)) in
    ({| reply_message := String.append "Permanent failure: " errMessage;
        forexOrderId := ForexOrder.id forexOrder;
        forexTransactionId := ForexTransaction.id forexTxn |},
     notifyUser emailPayload st2)
  else
    ({| reply_message := "Temporary failure; Retrying order";
        forexOrderId := ForexOrder.id forexOrder;
        forexTransactionId := ForexTransaction.id forexTxn |},
     enqueue {| orderId := ForexOrder.id forexOrder;
                transactionId := ForexTransaction.id forexTxn;
                errCode := errCode;
                errMessage := errMessage |} st1).

Definition succeedOrder (forexOrder : ForexOrder.t)
    (forexTxn : ForexTransaction.t) (walletResponse : BuyForexResponse)
    (st : State) : Reply * State :=
  let exchangeRate := br_exchangeRate walletResponse in
  let targetAmount := br_targetAmount walletResponse in
  let st1 :=
    set_forexOrders
      (updateById ForexOrder.id (ForexOrder.id forexOrder)
         (ForexOrder.with_status OrderStatus.COMPLETED) (forexOrders st)) st in
  let st2 :=
    set_forexTransactions
      (updateById ForexTransaction.id (ForexTransaction.id forexTxn)
         (fun x => ForexTransaction.with_result exchangeRate targetAmount
                     (ForexTransaction.with_status TransactionStatus.COMPLETED x))
         (forexTransactions st1)) st1 in
  let emailPayload :=
    createTransactionEmail
      (success (ForexOrder.userEmail forexOrder)
               (ForexOrder.targetCurrency forexOrder)
               (ForexOrder.id forexOrder) (ForexTransaction.id forexTxn)
               (ForexOrder.baseCurrency forexOrder)
               (Decimal.toFixed 2 targetAmount)
               (Decimal.toFixed 4 exchangeRate)) in
  ({| reply_message := "Order completed";
      forexOrderId := ForexOrder.id forexOrder;
      forexTransactionId := ForexTransaction.id forexTxn |},
   notifyUser emailPayload st2).

(** [forexTxnRepo.save(forexTxnRepo.create({...}))] at the head of
    [processForexPurchase]: the entity has no id, so it is an INSERT.  The
    entity carries [exchangeRate: null] and [targetAmount: null]; the
    [DecimalTransformer] of the two columns writes [decimal?.toString()],
    which is [undefined] for [null], so the INSERT leaves both columns to
    their [default: 0.0] and the row holds 0 for both. *)
Definition createForexTxn (forexOrder : ForexOrder.t) (st : State)
  : ForexTransaction.t * State :=
  let forexTxn :=
    ForexTransaction.mk (freshId ForexTransaction.id (forexTransactions st))
      (ForexOrder.userId forexOrder) (ForexOrder.id forexOrder)
      (ForexOrder.baseCurrency forexOrder)
      (ForexOrder.targetCurrency forexOrder) (ForexOrder.amount forexOrder)
      (Some (Decimal.dec 0 0)) (Some (Decimal.dec 0 0))
      TransactionStatus.INITIATED None None in
  (forexTxn, set_forexTransactions (forexTransactions st ++ [forexTxn]) st).

(** The [switch (err.code)] of the [catchError] handler. *)
Definition hardFailOf (c : status.t) : bool :=
  match c with
  | status.NOT_FOUND | status.INVALID_ARGUMENT => true
  | _ => false
  end.

Definition onBuyForexError (forexOrder : ForexOrder.t)
    (forexTxn : ForexTransaction.t) (err : RpcException) (st : State)
  : Reply * State :=
  failOrder forexOrder forexTxn (message err) (code err)
            (hardFailOf (code err)) st.

Definition requestOf (forexOrder : ForexOrder.t) : BuyForexRequest :=
  {| bf_amount := ForexOrder.amount forexOrder;
     bf_baseCurrency := ForexOrder.baseCurrency forexOrder;
     bf_targetCurrency := ForexOrder.targetCurrency forexOrder;
     bf_userId := ForexOrder.userId forexOrder |}.

Definition processForexPurchase (env : Env) (forexOrder : ForexOrder.t)
    (st : State) : Reply * State :=
  let '(forexTxn, st1) := createForexTxn forexOrder st in
  let '(res, db') :=
    walletClient_buyForex env (requestOf forexOrder) (walletDb st1) in
  let st2 := set_walletDb db' st1 in
  match res with
  | Ok res => succeedOrder forexOrder forexTxn res st2
  | Err err => onBuyForexError forexOrder forexTxn err st2
  end.

Definition buyForex (env : Env) (options : BuyForexServiceOptions)
    (st : State) : Reply * State :=
  let forexOrder :=
    ForexOrder.mk (freshId ForexOrder.id (forexOrders st))
      (opt_userId options) (opt_userEmail options) OrderType.BUY
      (opt_baseCurrency options) (opt_targetCurrency options)
      (opt_amount options) OrderStatus.PENDING O None None in
  processForexPurchase env forexOrder
    (set_forexOrders (forexOrders st ++ [forexOrder]) st).

Definition walletRequestOf (user : GrpcUser) (payload : WalletPayload)
  : WalletAmountRequest :=
  {| wr_walletId := wp_walletId payload; wr_userId := user_id user;
     wr_amount := wp_decimal payload |}.

(** The [switch (err.code)] of the [catchError] handlers of
    [processWalletFunding] and [processWalletWithdrawal]. *)
Definition httpErrorOf (fallback : string) (err : RpcException)
  : HttpException :=
  match code err with
  | status.NOT_FOUND => NotFoundException (message err)
  | status.INVALID_ARGUMENT => BadRequestException (message err)
  | status.ABORTED => InternalServerErrorException (message err)
  | _ => InternalServerErrorException fallback
  end.

Definition processWalletFunding (env : Env) (user : GrpcUser)
    (payload : WalletPayload) (st : State) : Outcome WalletEntity * State :=
  let '(res, db') :=
    walletClient_fundWallet env (walletRequestOf user payload) (walletDb st) in
  let st1 := set_walletDb db' st in
  match res with
  | Err err =>
      (Thrown (httpErrorOf "Unable to complete funding. Please try again later"
                           err),
       notifyUser {| html := "";
                     text := "Wallet funding was unsucessful";
                     subject := "Wallet funding unsucessful";
                     to := user_email user |} st1)
  | Ok res =>
      (Returned res,
       notifyUser {| html := "";
                     subject := "Wallet funding was successful";
                     text := String.concat ""
                       ["Funded successfully wallet of Id ";
                        uuid (wp_walletId payload); ", currency: ";
                        we_currency res; " with amount "; wp_amount payload;
                        ". Your new balance is "; we_balance res; "}"];
                     to := user_email user |} st1)
  end.

Definition processWalletWithdrawal (env : Env) (user : GrpcUser)
    (payload : WalletPayload) (st : State) : Outcome WalletEntity * State :=
  let '(res, db') :=
    walletClient_withdrawWallet env (walletRequestOf user payload)
                                (walletDb st) in
  let st1 := set_walletDb db' st in
  match res with
  | Err err =>
      (Thrown (httpErrorOf
                 "Unable to complete withdrawal. Please try again later" err),
       notifyUser {| html := "";
                     text := "Wallet withdrawal was unsucessful";
                     subject := "Wallet withdrawal unsucessful";
                     to := user_email user |} st1)
  | Ok res =>
      (Returned res,
       notifyUser {| html := "";
                     subject := "Wallet withdrawal was successful";
                     text := String.concat ""
                       ["Withdrew successfully from wallet of Id ";
                        uuid (wp_walletId payload); ", currency: ";
                        we_currency res; ", amount "; wp_amount payload;
                        ". Your new balance is "; we_balance res; "}"];
                     to := user_email user |} st1)
  end.

Definition fundWallet (env : Env) (user : GrpcUser) (payload : WalletPayload)
    (st : State) : Outcome WalletEntity * State :=
  processWalletFunding env user payload st.

Definition withdrawWallet (env : Env) (user : GrpcUser)
    (payload : WalletPayload) (st : State) : Outcome WalletEntity * State :=
  processWalletWithdrawal env user payload st.

End TransactionsService.

(** ** RetryOrderConsumer (retry-order.consumer.ts) *)
Module RetryOrderConsumer.


Definition handleRetry (maxRetries : nat) (env : Env) (data : RetryOrderEvent)
    (st : State) : State :=
  let st1 :=
    set_forexOrders
      (updateById ForexOrder.id (orderId data)
         (fun o => ForexOrder.with_retryAttempts (S (ForexOrder.retryAttempts o)) o)
         (forexOrders st)) st in
  match findById ForexOrder.id (orderId data) (forexOrders st1),
        findById ForexTransaction.id (transactionId data)
                 (forexTransactions st1) with
  | Some forexOrder, Some forexTxn =>
      if Nat.leb maxRetries (ForexOrder.retryAttempts forexOrder)
      then snd (TransactionsService.failOrder forexOrder forexTxn
                  (errMessage data) (errCode data) true st1)
      else snd (TransactionsService.processForexPurchase env forexOrder st1)
  | _, _ => st1
  end.

Definition process (maxRetries : nat) (env : Env) (job : RetryOrderEvent)
    (st : State) : State :=
  handleRetry maxRetries env job st.

(** The BullMQ worker: it takes the oldest job off the queue and calls
    [process] on it, once for every environment it is given, until the
    queue is empty. *)
Fixpoint runWorker (maxRetries : nat) (envs : list Env) (st : State) : State :=
  match envs with
  | [] => st
  | env :: envs' =>
      match retryQueue st with
      | [] => st
      | job :: rest =>
          runWorker maxRetries envs'
                    (process maxRetries env job (set_retryQueue rest st))
      end
  end.

End RetryOrderConsumer.

(** ** The auth application (apps/auth/src/app) *)

(** The columns of [Users] that the services read and write. *)
Module Users.
Record t : Type := mk {
  id : nat;
  email : string;
  password : string
}.
End Users.

(** [argon2]: [hash], and [verify hash plain], which resolves to whether the
    password matches the hash, or rejects ([None]). *)
Record Argon2 : Type := {
  hash : string -> string;
  verify : string -> string -> option bool
}.

(** [this.walletService.createWallet(request)] and
    [this.walletService.getAllUserWallets(request)] seen from the client. *)
Definition walletClient_createWallet (env : Env) (request : CreateWalletRequest)
    (db : WalletDb) : Result WalletEntity * WalletDb :=
  match transport env with
  | Some e => (Err e, db)
  | None =>
      let '(answer, db') := WalletService.createWallet request db in
      (received answer, db')
  end.

Definition walletClient_getAllUserWallets (env : Env)
    (request : GetAllUserWalletsRequest) (db : WalletDb)
  : Result (list WalletEntity) :=
  match transport env with
  | Some e => Err e
  | None => received (WalletService.getAllUserWallets request db)
  end.

(** *** UsersService (users/users.service.ts) *)
Module UsersService.

Definition createUserWallet (env : Env) (userId currency : string)
    (db : WalletDb) : Outcome WalletEntity * WalletDb :=
  match walletClient_createWallet env
          {| cw_userId := userId; cw_currency := currency |} db with
  | (Err _, db') =>
      (Thrown (InternalServerErrorException "Something wrong happened"), db')
  | (Ok createWalletResponse, db') => (Returned createWalletResponse, db')
  end.

Definition getAllUserWallets (env : Env) (userId : string) (db : WalletDb)
  : Outcome (list WalletEntity) :=
  match walletClient_getAllUserWallets env {| ga_userId := userId |} db with
  | Err err =>
      match code err with
      | status.NOT_FOUND => Thrown (NotFoundException (message err))
      | _ => Thrown (InternalServerErrorException (message err))
      end
  | Ok wallets => Returned wallets
  end.

(** [findOneOrFail({ where })]: [None] when it rejects. *)
Definition getUser (where' : Users.t -> bool) (users : list Users.t)
  : option Users.t :=
  find where' users.

(** [None] stands for the [Error('user already exists')] it throws. *)
Definition createBasicUserOrFail (email password : string)
    (users : list Users.t) : option Users.t * list Users.t :=
  let userExists := existsb (fun u => String.eqb (Users.email u) email) users in
  if userExists then (None, users)
  else
    let user := Users.mk (freshId Users.id users) email password in
    (Some user, users ++ [user]).

End UsersService.

(** *** AuthService (auth/auth.service.ts) *)
Module AuthService.

Definition verifyUser (argon2 : Argon2) (email password : string)
    (users : list Users.t) : Outcome Users.t :=
  match UsersService.getUser (fun u => String.eqb (Users.email u) email)
                             users with
  | None => Thrown (UnauthorizedException "Credentials are not valid.")
  | Some user =>
      match verify argon2 (Users.password user) password with
      | None => Thrown (UnauthorizedException "Credentials are not valid.")
      | Some _ => Returned user
      end
  end.

End AuthService.

(** * Vocabulary of the properties *)

Open Scope nat_scope.

(** ** Fixtures used by the examples, witnesses and counterexamples *)
Module Fixture.
Definition usd1000 : Wallet.t := Wallet.mk 0 "alice" "USD" (Decimal.dec 1000 0).
Definition usd50 : Wallet.t := Wallet.mk 0 "alice" "USD" (Decimal.dec 50 0).

Definition dbOf (ws : list Wallet.t) : WalletDb :=
  {| wallets := ws; walletTransactions := [] |}.

Definition stateOf (ws : list Wallet.t) : State :=
  {| walletDb := dbOf ws; forexOrders := []; forexTransactions := [];
     retryQueue := []; notifications := [] |}.

(** Lookups by currency return the oldest wallet of the currency. *)
Definition oldest : string -> nat := fun _ => 0.

(** The integration service answers with [r]; the write [fault] raises. *)
Definition walletEnvOf (r : Decimal.t) (fault : option nat) : WalletEnv :=
  {| convertCurrency := Replied (Some r); fault := fault; firstRow := oldest |}.

(** The integration service answers with [r]; nothing fails. *)
Definition rateIs (r : Decimal.t) : Env :=
  {| transport := None; walletEnv := walletEnvOf r None |}.

(** The integration service does not answer. *)
Definition rateDown : Env :=
  {| transport := None;
     walletEnv := {| convertCurrency := CallFailed; fault := None;
                     firstRow := oldest |} |}.

(** The integration service answers, but has no rate for the pair. *)
Definition rateMissing : Env :=
  {| transport := None;
     walletEnv := {| convertCurrency := Replied None; fault := None;
                     firstRow := oldest |} |}.


Definition buy (user : string) (amount : Decimal.t) : BuyForexServiceOptions :=
  {| opt_baseCurrency := "USD"; opt_targetCurrency := "EUR";
     opt_amount := amount; opt_userId := user;
     opt_userEmail := "user@example.com" |}.

Definition rate_1_10 : Decimal.t := Decimal.dec 110 (-2).

(** Alice's order to buy EUR for 100 USD, as [buyForex] stores it. *)
Definition pendingOrder : ForexOrder.t :=
  ForexOrder.mk 0 "alice" "user@example.com" OrderType.BUY "USD" "EUR"
                (Decimal.dec 100 0) OrderStatus.PENDING 0 None None.

Definition pendingState (ws : list Wallet.t) : State :=
  set_forexOrders [pendingOrder] (stateOf ws).
End Fixture.

Definition errorCode {A : Type} (r : Result A) : option status.t :=
  match r with Ok _ => None | Err e => Some (code e) end.

(** The wallet of a user for a currency. *)
Definition ownedBy (userId currency : string) (w : Wallet.t) : bool :=
  String.eqb (Wallet.userId w) userId && String.eqb (Wallet.currency w) currency.

(** The number of database writes in the transaction of [buyForex]: the two
    wallets, the two ledger rows, and the target wallet's INSERT when the
    lookup by currency finds none. *)
Definition buyForexWrites (request : BuyForexRequest) (db : WalletDb) : nat :=
  match find (fun w => String.eqb (Wallet.currency w) (bf_targetCurrency request))
             (wallets db) with
  | Some _ => 4
  | None => 5
  end.

(** The row that [processForexPurchase] inserts for this execution. *)
Definition initiatedTxn (forexOrder : ForexOrder.t) (st : State)
  : ForexTransaction.t :=
  fst (TransactionsService.createForexTxn forexOrder st).

Definition failedTxn (err : RpcException) (x : ForexTransaction.t)
  : ForexTransaction.t :=
  ForexTransaction.with_error (code err) (message err)
    (ForexTransaction.with_status TransactionStatus.FAILED x).

Definition completedTxn (res : BuyForexResponse) (x : ForexTransaction.t)
  : ForexTransaction.t :=
  ForexTransaction.with_result (br_exchangeRate res) (br_targetAmount res)
    (ForexTransaction.with_status TransactionStatus.COMPLETED x).

Definition failedOrder (c : status.t) (m : string) (o : ForexOrder.t)
  : ForexOrder.t :=
  ForexOrder.with_error c m (ForexOrder.with_status OrderStatus.FAILED o).

Definition failureEmail (forexOrder : ForexOrder.t) (transactionId : nat)
  : NotificationEmailEvent :=
  TransactionsService.createTransactionEmail
    (TransactionsService.failure (ForexOrder.userEmail forexOrder)
       (ForexOrder.targetCurrency forexOrder) (ForexOrder.id forexOrder)
       transactionId (ForexOrder.baseCurrency forexOrder)).

Definition retryJob (forexOrder : ForexOrder.t) (transactionId : nat)
    (err : RpcException) : RetryOrderEvent :=
  {| orderId := ForexOrder.id forexOrder; transactionId := transactionId;
     errMessage := message err; errCode := code err |}.






(** ** The wallet tables *)

(** Ids are unique. *)
Definition uniqueIds (db : WalletDb) : Prop :=
  NoDup (map Wallet.id (wallets db)).

(** [@Unique(['userId', 'currency'])] of the Wallet entity. *)
Definition onePerUserCurrency (db : WalletDb) : Prop :=
  NoDup (map (fun w => (Wallet.userId w, Wallet.currency w)) (wallets db)).

(** Every ledger row belongs to a stored wallet. *)
Definition ledgerRefersToWallets (db : WalletDb) : Prop :=
  forall x : WalletTransaction.t,
    In x (walletTransactions db) ->
    In (WalletTransaction.wallet x) (map Wallet.id (wallets db)).

(** The effect of one ledger row on a balance, in decimal.js arithmetic. *)
Definition applyEntry (balance : Decimal.t) (x : WalletTransaction.t)
  : Decimal.t :=
  match WalletTransaction.type x with
  | TransactionType.FUND | TransactionType.CREDIT =>
      Decimal.plus balance (WalletTransaction.amount x)
  | TransactionType.WITHDRAW | TransactionType.DEBIT =>
      Decimal.minus balance (WalletTransaction.amount x)
  end.

(** The rows of a wallet, oldest first, applied to a balance of 0. *)
Definition replay (walletId : nat) (ledger : list WalletTransaction.t)
  : Decimal.t :=
  fold_left applyEntry
    (filter (fun x => Nat.eqb (WalletTransaction.wallet x) walletId) ledger)
    (Decimal.dec 0 0).

Definition balancesReplayLedger (db : WalletDb) : Prop :=
  forall w : Wallet.t,
    In w (wallets db) ->
    Wallet.balance w = replay (Wallet.id w) (walletTransactions db).

Definition consistent (db : WalletDb) : Prop :=
  uniqueIds db /\ onePerUserCurrency db /\ ledgerRefersToWallets db /\
  balancesReplayLedger db.

(** [w] is a loaded copy of a stored wallet: same id, user and currency. *)
Definition stored (w : Wallet.t) (db : WalletDb) : Prop :=
  exists r : Wallet.t,
    In r (wallets db) /\ Wallet.id r = Wallet.id w /\
    Wallet.userId r = Wallet.userId w /\ Wallet.currency r = Wallet.currency w.

(** One committed balance change of a loaded wallet: the wallet saved with its
    new balance and the ledger row inserted for it. *)
Definition post (w : Wallet.t) (type : TransactionType.t) (amount : Decimal.t)
    (description : string) (db : WalletDb) : WalletDb :=
  let row := WalletTransaction.mk O (Wallet.id w) type amount
               (Wallet.currency w) description in
  let w' := Wallet.with_balance (applyEntry (Wallet.balance w) row) w in
  {| wallets := saveRow Wallet.id w' (wallets db);
     walletTransactions :=
       walletTransactions db ++
       [WalletTransaction.with_id
          (freshId WalletTransaction.id (walletTransactions db)) row] |}.

(** A wallet inserted with balance 0 under a generated id. *)
Definition newWallet (userId currency : string) (db : WalletDb) : Wallet.t :=
  Wallet.mk (freshId Wallet.id (wallets db)) userId currency (Decimal.dec 0 0).

Definition addWallet (userId currency : string) (db : WalletDb) : WalletDb :=
  set_wallets (wallets db ++ [newWallet userId currency db]) db.

(** The calls the wallet service answers. *)
Inductive WalletCall : Type :=
| CreateWallet (request : CreateWalletRequest)
| GetWalletBalance (request : GetWalletBalanceRequest)
| FundWallet (request : WalletAmountRequest) (fault : option nat)
| WithdrawWallet (request : WalletAmountRequest) (fault : option nat)
| BuyForex (request : BuyForexRequest) (env : WalletEnv).

Definition serve (call : WalletCall) (db : WalletDb) : WalletDb :=
  match call with
  | CreateWallet request => snd (WalletService.createWallet request db)
  | GetWalletBalance request => snd (WalletService.getWalletBalance request db)
  | FundWallet request fault => snd (WalletService.fundWallet request fault db)
  | WithdrawWallet request fault =>
      snd (WalletService.withdrawWallet request fault db)
  | BuyForex request env => snd (WalletService.buyForex request env db)
  end.

Definition serveAll (calls : list WalletCall) (db : WalletDb) : WalletDb :=
  fold_left (fun d call => serve call d) calls db.

(** A purchase from a currency into itself is excluded. *)
Definition twoCurrencies (call : WalletCall) : Prop :=
  match call with
  | BuyForex request _ => bf_baseCurrency request <> bf_targetCurrency request
  | _ => True
  end.

(** What a user asked for: the fields of an order that no execution and no
    retry job may change. *)
Definition sameRequest (o o' : ForexOrder.t) : Prop :=
  ForexOrder.id o' = ForexOrder.id o /\
  ForexOrder.userId o' = ForexOrder.userId o /\
  ForexOrder.userEmail o' = ForexOrder.userEmail o /\
  ForexOrder.type o' = ForexOrder.type o /\
  ForexOrder.baseCurrency o' = ForexOrder.baseCurrency o /\
  ForexOrder.targetCurrency o' = ForexOrder.targetCurrency o /\
  ForexOrder.amount o' = ForexOrder.amount o.

(** ** The tables of the transaction service *)








(** * Properties *)

(** ** Facts about tables *)
Section TableFacts.
Context {R : Type} (key : R -> nat).

Lemma key_lt_freshId (tbl : list R) (r : R) :
  In r tbl -> key r < freshId key tbl.
Proof.
  unfold freshId. induction tbl as [|x tbl IH]; cbn [fold_right In]; [tauto|].
  intros [->|Hin]; [lia|]. specialize (IH Hin). lia.
Qed.

Lemma findById_key (i : nat) (tbl : list R) (r : R) :
  findById key i tbl = Some r -> key r = i /\ In r tbl.
Proof.
  unfold findById. intros H. apply find_some in H. destruct H as [Hin Hk].
  apply Nat.eqb_eq in Hk. auto.
Qed.

Lemma findById_freshId (tbl : list R) :
  findById key (freshId key tbl) tbl = None.
Proof.
  destruct (findById key (freshId key tbl) tbl) as [r|] eqn:E; [|reflexivity].
  apply findById_key in E. destruct E as [Hk Hin].
  apply key_lt_freshId in Hin. lia.
Qed.



Lemma findById_updateById (i j : nat) (f : R -> R) (tbl : list R) :
  (forall r, key (f r) = key r) ->
  findById key j (updateById key i f tbl) =
  if Nat.eqb i j then option_map f (findById key j tbl)
  else findById key j tbl.
Proof.
  intros Hf. unfold findById, updateById.
  induction tbl as [|x tbl IH]; simpl.
  - destruct (Nat.eqb i j); reflexivity.
  - destruct (Nat.eqb (key x) i) eqn:Exi.
    + rewrite Hf. apply Nat.eqb_eq in Exi. subst i.
      destruct (Nat.eqb (key x) j) eqn:Exj; simpl; [reflexivity|].
      rewrite IH. reflexivity.
    + destruct (Nat.eqb (key x) j) eqn:Exj.
      * apply Nat.eqb_eq in Exj. subst j.
        rewrite Nat.eqb_sym, Exi. reflexivity.
      * exact IH.
Qed.

Lemma updateById_absent (i : nat) (f : R -> R) (tbl : list R) :
  findById key i tbl = None -> updateById key i f tbl = tbl.
Proof.
  unfold findById, updateById. induction tbl as [|x tbl IH]; simpl;
    [reflexivity|].
  destruct (Nat.eqb (key x) i); [discriminate|].
  intros H. rewrite IH by exact H. reflexivity.
Qed.

Lemma updateById_inserted (f : R -> R) (tbl : list R) (r : R) :
  key r = freshId key tbl ->
  updateById key (freshId key tbl) f (tbl ++ [r]) = tbl ++ [f r].
Proof.
  intros Hk. unfold updateById. rewrite map_app. simpl.
  rewrite Hk, Nat.eqb_refl. f_equal.
  apply (updateById_absent (freshId key tbl) f tbl).
  apply findById_freshId.
Qed.

Lemma length_updateById (i : nat) (f : R -> R) (tbl : list R) :
  List.length (updateById key i f tbl) = List.length tbl.
Proof. unfold updateById. apply length_map. Qed.
End TableFacts.

(** ** Lookups that are not by key *)

Lemma findOneWhere_some {R : Type} (pick : nat) (p : R -> bool) (tbl : list R)
    (r : R) :
  findOneWhere pick p tbl = Some r -> In r tbl /\ p r = true.
Proof.
  unfold findOneWhere. intros H. apply nth_error_In in H.
  apply filter_In in H. exact H.
Qed.

Lemma findOneWhere_none {R : Type} (pick : nat) (p : R -> bool) (tbl : list R) :
  findOneWhere pick p tbl = None -> forall x, In x tbl -> p x = false.
Proof.
  unfold findOneWhere. intros H x Hx.
  destruct (p x) eqn:E; [exfalso|reflexivity].
  assert (Hin : In x (filter p tbl)) by (apply filter_In; auto).
  destruct (filter p tbl) as [|y rows]; [exact Hin|].
  apply nth_error_None in H.
  pose proof (Nat.mod_upper_bound pick (List.length (y :: rows))) as Hlt.
  cbn [List.length] in *. lia.
Qed.

(** Whether a row is found does not depend on the choice. *)
Lemma findOneWhere_none_find {R : Type} (pick : nat) (p : R -> bool)
    (tbl : list R) :
  findOneWhere pick p tbl = None <-> find p tbl = None.
Proof.
  split; intros H.
  - destruct (find p tbl) as [r|] eqn:E; [|reflexivity].
    apply find_some in E. destruct E as [Hin Hp].
    rewrite (findOneWhere_none pick p tbl H r Hin) in Hp. discriminate.
  - destruct (findOneWhere pick p tbl) as [r|] eqn:E; [|reflexivity].
    apply findOneWhere_some in E. destruct E as [Hin Hp].
    rewrite (find_none p tbl H r Hin) in Hp. discriminate.
Qed.

Lemma fetchExchangeRate_rate (env : WalletEnv) (r : Decimal.t) :
  WalletService.fetchExchangeRate env = Ok r <-> rate env = Some r.
Proof.
  unfold WalletService.fetchExchangeRate, rate.
  destruct (convertCurrency env) as [|[x|]]; split; intros H;
    try discriminate; injection H as <-; reflexivity.
Qed.

(** ** decimal.js arithmetic *)

Example toFixed_110 : Decimal.toFixed 2 (Decimal.dec 110 0) = "110.00".
Proof. reflexivity. Qed.

Example toFixed_half_up : Decimal.toFixed 2 (Decimal.dec 12345 (-3)) = "12.35".
Proof. reflexivity. Qed.

Example mul_100_by_1_10 :
  Decimal.mul (Decimal.dec 10000 (-2)) (Decimal.dec 110 (-2)) = Decimal.dec 110 0.
Proof. reflexivity. Qed.




(** ** The wallet service *)

(** C10. [getWalletBalance] always resolves, never with NOT_FOUND: when the
    user has a wallet in the currency it returns that wallet and leaves the
    database as it is; when the user has none it inserts exactly one wallet
    for that user and currency, with balance 0, and returns it. *)
Theorem getWalletBalance_creates_missing_wallet
    (request : GetWalletBalanceRequest) (db : WalletDb) :
  exists (entity : WalletEntity) (db' : WalletDb),
    WalletService.getWalletBalance request db = (Ok entity, db') /\
    we_userId entity = gb_userId request /\
    we_currency entity = gb_walletCurrency request /\
    match find (ownedBy (gb_userId request) (gb_walletCurrency request))
               (wallets db) with
    | Some wallet =>
        db' = db /\ entity = WalletService.createWalletEntity wallet
    | None =>
        exists wallet : Wallet.t,
          db' = set_wallets (wallets db ++ [wallet]) db /\
          entity = WalletService.createWalletEntity wallet /\
          Wallet.userId wallet = gb_userId request /\
          Wallet.currency wallet = gb_walletCurrency request /\
          Wallet.balance wallet = Decimal.dec 0 0 /\
          we_balance entity = "0.00" /\
          findById Wallet.id (Wallet.id wallet) (wallets db) = None
    end.
Proof.
  unfold WalletService.getWalletBalance, WalletService.createWallet, ownedBy.
  cbn [cw_userId cw_currency].
  destruct (find _ (wallets db)) as [wallet|] eqn:Efind.
  - exists (WalletService.createWalletEntity wallet), db.
    apply find_some in Efind. destruct Efind as [_ Hown].
    apply andb_true_iff in Hown. destruct Hown as [Hu Hc].
    apply String.eqb_eq in Hu. apply String.eqb_eq in Hc.
    repeat split; assumption.
  - eexists. eexists. split; [reflexivity|].
    split; [reflexivity|]. split; [reflexivity|].
    eexists. split; [reflexivity|]. split; [reflexivity|].
    repeat split. apply findById_freshId.
Qed.

Example getWalletBalance_on_empty_database :
  WalletService.getWalletBalance
    {| gb_userId := "alice"; gb_walletCurrency := "EUR" |} (Fixture.dbOf []) =
  (Ok {| we_walletId := 0; we_userId := "alice"; we_balance := "0.00";
         we_currency := "EUR" |},
   Fixture.dbOf [Wallet.mk 0 "alice" "EUR" (Decimal.dec 0 0)]).
Proof. reflexivity. Qed.


(** C7 (amended). A withdrawal or a forex purchase whose source wallet holds
    less than the requested amount is rejected before any write, with
    INVALID_ARGUMENT and the message "Insufficient balance": the database is
    unchanged, so no balance moved and no WalletTransaction was inserted. *)
Theorem insufficient_funds_rejected_before_any_write :
  (forall (request : WalletAmountRequest) (fault : option nat) (db : WalletDb)
          (wallet : Wallet.t),
      find (fun w => Nat.eqb (Wallet.id w) (wr_walletId request)
                     && String.eqb (Wallet.userId w) (wr_userId request))
           (wallets db) = Some wallet ->
      Decimal.lessThan (Wallet.balance wallet) (wr_amount request) = true ->
      WalletService.withdrawWallet request fault db =
      (Err {| code := status.INVALID_ARGUMENT;
              message := "Insufficient balance" |}, db)) /\
  (forall (request : BuyForexRequest) (env : WalletEnv) (db : WalletDb)
          (baseWallet : Wallet.t),
      WalletService.findBaseWalletOrFail env (bf_baseCurrency request) db =
        Ok baseWallet ->
      Decimal.lessThan (Wallet.balance baseWallet) (bf_amount request) = true ->
      WalletService.buyForex request env db =
      (Err {| code := status.INVALID_ARGUMENT;
              message := "Insufficient balance" |}, db)).
Proof.
  split.
  - intros request fault db wallet Hfind Hless.
    unfold WalletService.withdrawWallet, WalletService.handleWalletTransaction.
    rewrite Hfind. unfold WalletService.validateSufficientFund.
    rewrite Hless. reflexivity.
  - intros request env db baseWallet Hfind Hless.
    unfold WalletService.buyForex. rewrite Hfind.
    unfold WalletService.validateSufficientFund. rewrite Hless. reflexivity.
Qed.

Lemma insufficient_funds_rejected_witness :
  WalletService.withdrawWallet
    {| wr_walletId := 0; wr_userId := "alice"; wr_amount := Decimal.dec 100 0 |}
    None (Fixture.dbOf [Fixture.usd50]) =
  (Err {| code := status.INVALID_ARGUMENT; message := "Insufficient balance" |},
   Fixture.dbOf [Fixture.usd50]) /\
  WalletService.buyForex
    {| bf_userId := "alice"; bf_baseCurrency := "USD";
       bf_targetCurrency := "EUR"; bf_amount := Decimal.dec 100 0 |}
    (walletEnv (Fixture.rateIs Fixture.rate_1_10))
    (Fixture.dbOf [Fixture.usd50]) =
  (Err {| code := status.INVALID_ARGUMENT; message := "Insufficient balance" |},
   Fixture.dbOf [Fixture.usd50]).
Proof.
  split.
  - apply (proj1 insufficient_funds_rejected_before_any_write _ _ _ Fixture.usd50);
      reflexivity.
  - apply (proj2 insufficient_funds_rejected_before_any_write _ _ _ Fixture.usd50);
      reflexivity.
Defined.

(** C7, as stated, fails: withdrawing 100 from a wallet that holds 50 is
    rejected with INVALID_ARGUMENT, not with FAILED_PRECONDITION. *)
Lemma insufficient_funds_code_is_not_failed_precondition :
  let request :=
    {| wr_walletId := 0; wr_userId := "alice"; wr_amount := Decimal.dec 100 0 |} in
  let db := Fixture.dbOf [Fixture.usd50] in
  Decimal.lessThan (Wallet.balance Fixture.usd50) (wr_amount request) = true /\
  errorCode (fst (WalletService.withdrawWallet request None db)) =
    Some status.INVALID_ARGUMENT /\
  errorCode (fst (WalletService.withdrawWallet request None db)) <>
    Some status.FAILED_PRECONDITION.
Proof. cbv zeta. repeat split. discriminate. Qed.

(** C5. The two balance updates and the two WalletTransaction inserts of a
    forex purchase are writes of one database transaction: when any of them
    raises (for instance the write of the target wallet, after the source
    wallet was debited), the transaction is rolled back, the database and
    with it both balances are as before, and the caller gets ABORTED. *)
Theorem buyForex_rolls_back_on_any_failed_write
    (request : BuyForexRequest) (env : WalletEnv) (db : WalletDb)
    (baseWallet : Wallet.t) (exchangeRate : Decimal.t) (k : nat) :
  WalletService.findBaseWalletOrFail env (bf_baseCurrency request) db = Ok baseWallet ->
  Decimal.lessThan (Wallet.balance baseWallet) (bf_amount request) = false ->
  rate env = Some exchangeRate ->
  fault env = Some k ->
  k < buyForexWrites request db ->
  WalletService.buyForex request env db =
  (Err {| code := status.ABORTED;
          message := "Could not complete forex purchase try again later" |}, db).
Proof.
  intros Hbase Hfund Hrate Hfault Hk.
  unfold WalletService.buyForex. rewrite Hbase.
  unfold WalletService.validateSufficientFund. rewrite Hfund.
  rewrite (proj2 (fetchExchangeRate_rate env exchangeRate) Hrate), Hfault.
  unfold buyForexWrites in Hk.
  unfold transaction, WalletService.buyForexTxn,
    WalletService.getOrCreateTargetWalletInTxn, bind, read.
  destruct (findOneWhere _ _ (wallets db)) as [targetWallet|] eqn:Htarget.
  - destruct (find _ (wallets db)) eqn:Hfound in Hk.
    + destruct k as [|[|[|[|k]]]]; [reflexivity..|lia].
    + rewrite (proj2 (findOneWhere_none_find _ _ _) Hfound) in Htarget.
      discriminate.
  - apply findOneWhere_none_find in Htarget. rewrite Htarget in Hk.
    destruct k as [|[|[|[|[|k]]]]]; [reflexivity..|lia].
Qed.

Lemma buyForex_rolls_back_witness :
  WalletService.buyForex
    {| bf_userId := "alice"; bf_baseCurrency := "USD";
       bf_targetCurrency := "EUR"; bf_amount := Decimal.dec 100 0 |}
    (Fixture.walletEnvOf Fixture.rate_1_10 (Some 2))
    (Fixture.dbOf [Fixture.usd1000]) =
  (Err {| code := status.ABORTED;
          message := "Could not complete forex purchase try again later" |},
   Fixture.dbOf [Fixture.usd1000]).
Proof.
  apply (buyForex_rolls_back_on_any_failed_write _ _ _ Fixture.usd1000
           Fixture.rate_1_10 2); try reflexivity.
  unfold buyForexWrites. simpl. lia.
Defined.

(** What a successful [buyForex] answers and appends to the ledger. *)
Lemma buyForex_success (request : BuyForexRequest) (env : WalletEnv)
    (db db' : WalletDb) (res : BuyForexResponse) :
  WalletService.buyForex request env db = (Ok res, db') ->
  exists (exchangeRate : Decimal.t) (debit credit : WalletTransaction.t),
    rate env = Some exchangeRate /\
    br_exchangeRate res = exchangeRate /\
    br_targetAmount res = Decimal.mul (bf_amount request) exchangeRate /\
    walletTransactions db' = walletTransactions db ++ [debit; credit] /\
    WalletTransaction.type debit = TransactionType.DEBIT /\
    WalletTransaction.amount debit = bf_amount request /\
    WalletTransaction.type credit = TransactionType.CREDIT /\
    WalletTransaction.amount credit =
      Decimal.mul (bf_amount request) exchangeRate.
Proof.
  unfold WalletService.buyForex.
  destruct (WalletService.findBaseWalletOrFail _ _ db) as [baseWallet|e];
    [|discriminate].
  destruct (WalletService.validateSufficientFund baseWallet _) as [b|e];
    [|discriminate].
  destruct (WalletService.fetchExchangeRate env) as [exchangeRate|e] eqn:Hrate;
    [|discriminate].
  apply fetchExchangeRate_rate in Hrate.
  unfold transaction, WalletService.buyForexTxn,
    WalletService.getOrCreateTargetWalletInTxn, bind, read.
  intros H. exists exchangeRate.
  destruct (findOneWhere _ _ (wallets db)) as [targetWallet|];
    unfold ret, WalletService.insertWallet, WalletService.saveWallet,
      WalletService.insertWalletTransaction, write in H;
    repeat match type of H with
           | context [raises ?f ?n] => destruct (raises f n)
           end;
    try discriminate H;
    cbn [set_wallets set_walletTransactions wallets walletTransactions] in H;
    inversion H; subst; clear H;
    cbn [walletTransactions br_exchangeRate br_targetAmount];
    rewrite <- app_assoc; cbn [app];
    do 2 eexists; repeat split; exact Hrate.
Qed.


(** ** The order state machine *)





(** The state after an execution whose wallet call failed with a code of the
    retry branch of the switch. *)
Lemma processForexPurchase_retry (env : Env) (forexOrder : ForexOrder.t)
    (st : State) (err : RpcException) (db' : WalletDb) :
  walletClient_buyForex env (TransactionsService.requestOf forexOrder)
                        (walletDb st) = (Err err, db') ->
  TransactionsService.hardFailOf (code err) = false ->
  snd (TransactionsService.processForexPurchase env forexOrder st) =
  {| walletDb := db';
     forexOrders := forexOrders st;
     forexTransactions :=
       forexTransactions st ++ [failedTxn err (initiatedTxn forexOrder st)];
     retryQueue :=
       retryQueue st ++
       [retryJob forexOrder (ForexTransaction.id (initiatedTxn forexOrder st)) err];
     notifications := notifications st |}.
Proof.
  intros Hcall Hsoft.
  unfold TransactionsService.processForexPurchase,
    TransactionsService.createForexTxn.
  cbn [walletDb set_forexTransactions]. rewrite Hcall.
  unfold TransactionsService.onBuyForexError, TransactionsService.failOrder.
  rewrite Hsoft.
  cbn [snd TransactionsService.enqueue set_retryQueue set_forexTransactions
       set_walletDb walletDb forexOrders forexTransactions retryQueue
       notifications ForexTransaction.id].
  rewrite (updateById_inserted ForexTransaction.id) by reflexivity.
  reflexivity.
Qed.

(** The state after an execution whose wallet call failed with a code of the
    permanent branch of the switch. *)
Lemma processForexPurchase_permanent (env : Env) (forexOrder : ForexOrder.t)
    (st : State) (err : RpcException) (db' : WalletDb) :
  walletClient_buyForex env (TransactionsService.requestOf forexOrder)
                        (walletDb st) = (Err err, db') ->
  TransactionsService.hardFailOf (code err) = true ->
  snd (TransactionsService.processForexPurchase env forexOrder st) =
  {| walletDb := db';
     forexOrders :=
       updateById ForexOrder.id (ForexOrder.id forexOrder)
         (failedOrder (code err) (message err)) (forexOrders st);
     forexTransactions :=
       forexTransactions st ++ [failedTxn err (initiatedTxn forexOrder st)];
     retryQueue := retryQueue st;
     notifications :=
       notifications st ++
       [failureEmail forexOrder (ForexTransaction.id (initiatedTxn forexOrder st))] |}.
Proof.
  intros Hcall Hhard.
  unfold TransactionsService.processForexPurchase,
    TransactionsService.createForexTxn.
  cbn [walletDb set_forexTransactions]. rewrite Hcall.
  unfold TransactionsService.onBuyForexError, TransactionsService.failOrder.
  rewrite Hhard.
  cbn [snd TransactionsService.notifyUser set_notifications set_forexOrders
       set_forexTransactions set_walletDb walletDb forexOrders
       forexTransactions retryQueue notifications ForexTransaction.id].
  rewrite (updateById_inserted ForexTransaction.id) by reflexivity.
  reflexivity.
Qed.

(** The state after an execution whose wallet call succeeded. *)
Lemma processForexPurchase_completed (env : Env) (forexOrder : ForexOrder.t)
    (st : State) (res : BuyForexResponse) (db' : WalletDb) :
  walletClient_buyForex env (TransactionsService.requestOf forexOrder)
                        (walletDb st) = (Ok res, db') ->
  exists email : NotificationEmailEvent,
    subject email = "Forex purchase completed" /\
    snd (TransactionsService.processForexPurchase env forexOrder st) =
    {| walletDb := db';
       forexOrders :=
         updateById ForexOrder.id (ForexOrder.id forexOrder)
           (ForexOrder.with_status OrderStatus.COMPLETED) (forexOrders st);
       forexTransactions :=
         forexTransactions st ++ [completedTxn res (initiatedTxn forexOrder st)];
       retryQueue := retryQueue st;
       notifications := notifications st ++ [email] |}.
Proof.
  intros Hcall.
  unfold TransactionsService.processForexPurchase,
    TransactionsService.createForexTxn.
  cbn [walletDb set_forexTransactions]. rewrite Hcall.
  unfold TransactionsService.succeedOrder.
  cbn [snd TransactionsService.notifyUser set_notifications set_forexOrders
       set_forexTransactions set_walletDb walletDb forexOrders
       forexTransactions retryQueue notifications ForexTransaction.id].
  rewrite (updateById_inserted ForexTransaction.id) by reflexivity.
  eexists. split; [|reflexivity]. reflexivity.
Qed.



(** An answer of the integration service without a rate is none of the
    codes of the taxonomy: the execution takes the [default] of the switch
    and the order is retried. *)
Example missing_rate_is_retried :
  let st := Fixture.pendingState [Fixture.usd1000] in
  let st' := snd (TransactionsService.processForexPurchase
                    Fixture.rateMissing Fixture.pendingOrder st) in
  errorCode (fst (walletClient_buyForex Fixture.rateMissing
                    (TransactionsService.requestOf Fixture.pendingOrder)
                    (walletDb st))) = Some status.UNKNOWN /\
  forexOrders st' = forexOrders st /\
  map errCode (retryQueue st') = [status.UNKNOWN] /\
  walletDb st' = walletDb st.
Proof. cbv zeta. repeat split. Qed.






(** ** The retry worker *)







(** The scenario of the specification: the rate lookup fails twice and
    succeeds on the third attempt. *)
Example third_attempt_succeeds :
  let st' := RetryOrderConsumer.runWorker 3
               [Fixture.rateDown; Fixture.rateIs Fixture.rate_1_10]
               (snd (TransactionsService.buyForex Fixture.rateDown
                       (Fixture.buy "alice" (Decimal.dec 100 0))
                       (Fixture.stateOf [Fixture.usd1000]))) in
  map ForexOrder.status (forexOrders st') = [OrderStatus.COMPLETED] /\
  map ForexOrder.retryAttempts (forexOrders st') = [2] /\
  map Wallet.balance (wallets (walletDb st')) =
    [Decimal.dec 900 0; Decimal.dec 110 0] /\
  List.length (walletTransactions (walletDb st')) = 2 /\
  retryQueue st' = [].
Proof. cbv zeta. repeat split. Qed.

(** ** Where the code departs from the specification *)

(** The wallets after an execution do not depend on the status the order
    has when it is executed. *)
Lemma execution_ignores_order_status (env : Env) (forexOrder : ForexOrder.t)
    (s : OrderStatus.t) (st : State) :
  walletDb (snd (TransactionsService.processForexPurchase env
                   (ForexOrder.with_status s forexOrder) st)) =
  walletDb (snd (TransactionsService.processForexPurchase env forexOrder st)).
Proof.
  unfold TransactionsService.processForexPurchase,
    TransactionsService.createForexTxn.
  cbn [walletDb set_forexTransactions].
  change (TransactionsService.requestOf (ForexOrder.with_status s forexOrder))
    with (TransactionsService.requestOf forexOrder).
  destruct (walletClient_buyForex env (TransactionsService.requestOf forexOrder)
              (walletDb st)) as [[res|err] db'].
  - reflexivity.
  - unfold TransactionsService.onBuyForexError, TransactionsService.failOrder.
    destruct (TransactionsService.hardFailOf (code err)); reflexivity.
Qed.

(** C1 (code bug). [processForexPurchase] has no guard on the state of the
    order.  Executed once, Alice's order is COMPLETED: 100 USD debited, 110 EUR
    credited.  Executed again, the COMPLETED order inserts a second
    ForexTransaction and transfers a second time.  The same happens when the
    retry job of a completed order is delivered twice. *)
Theorem completed_order_is_executed_again :
  let ok := Fixture.rateIs Fixture.rate_1_10 in
  let st1 := snd (TransactionsService.buyForex ok
                    (Fixture.buy "alice" (Decimal.dec 100 0))
                    (Fixture.stateOf [Fixture.usd1000])) in
  let completed := ForexOrder.with_status OrderStatus.COMPLETED
                     Fixture.pendingOrder in
  let st2 := snd (TransactionsService.processForexPurchase ok completed st1) in
  let job := {| orderId := 0; transactionId := 0;
                errMessage := "10 ABORTED: Unknown Error";
                errCode := status.ABORTED |} in
  let r1 := snd (TransactionsService.buyForex Fixture.rateDown
                   (Fixture.buy "alice" (Decimal.dec 100 0))
                   (Fixture.stateOf [Fixture.usd1000])) in
  let r2 := RetryOrderConsumer.handleRetry 3 ok job (set_retryQueue [] r1) in
  let r3 := RetryOrderConsumer.handleRetry 3 ok job r2 in
  (forexOrders st1 = [completed] /\
   map Wallet.balance (wallets (walletDb st1)) =
     [Decimal.dec 900 0; Decimal.dec 110 0] /\
   map Wallet.balance (wallets (walletDb st2)) =
     [Decimal.dec 800 0; Decimal.dec 220 0] /\
   List.length (walletTransactions (walletDb st2)) = 4 /\
   map ForexTransaction.status (forexTransactions st2) =
     [TransactionStatus.COMPLETED; TransactionStatus.COMPLETED]) /\
  (retryQueue r1 = [job] /\
   map ForexOrder.status (forexOrders r2) = [OrderStatus.COMPLETED] /\
   map Wallet.balance (wallets (walletDb r2)) =
     [Decimal.dec 900 0; Decimal.dec 110 0] /\
   map Wallet.balance (wallets (walletDb r3)) =
     [Decimal.dec 800 0; Decimal.dec 220 0]).
Proof. cbv zeta. repeat split. Qed.

(** When some wallet holds the target currency, the user of the request
    plays no part in [buyForex]. *)
Lemma buyForex_ignores_the_user (request : BuyForexRequest) (user : string)
    (env : WalletEnv) (db : WalletDb) :
  find (fun w => String.eqb (Wallet.currency w) (bf_targetCurrency request))
       (wallets db) <> None ->
  WalletService.buyForex
    {| bf_userId := user; bf_baseCurrency := bf_baseCurrency request;
       bf_targetCurrency := bf_targetCurrency request;
       bf_amount := bf_amount request |} env db =
  WalletService.buyForex request env db.
Proof.
  intros Htarget. unfold WalletService.buyForex.
  cbn [bf_baseCurrency bf_amount].
  destruct (WalletService.findBaseWalletOrFail _ _ db) as [baseWallet|e];
    [|reflexivity].
  destruct (WalletService.validateSufficientFund baseWallet _) as [b|e];
    [|reflexivity].
  destruct (WalletService.fetchExchangeRate env) as [r|e]; [|reflexivity].
  unfold transaction, WalletService.buyForexTxn,
    WalletService.getOrCreateTargetWalletInTxn, bind, read.
  cbn [bf_targetCurrency].
  destruct (findOneWhere _ _ (wallets db)) as [targetWallet|] eqn:Hfound;
    [reflexivity|].
  apply findOneWhere_none_find in Hfound. congruence.
Qed.

(** C2 (code bug). [findBaseWalletOrFail] and [getOrCreateTargetWalletInTxn]
    look wallets up by currency alone.  Bob has no wallet; his purchase of EUR
    for 100 USD debits Alice's USD wallet, and the EUR wallet created for him
    is the one every later purchase of EUR, by anyone, is credited to. *)
Theorem purchase_debits_another_users_wallet :
  let ok := Fixture.rateIs Fixture.rate_1_10 in
  let st1 := snd (TransactionsService.buyForex ok
                    (Fixture.buy "bob" (Decimal.dec 100 0))
                    (Fixture.stateOf [Fixture.usd1000])) in
  let st2 := snd (TransactionsService.buyForex ok
                    (Fixture.buy "alice" (Decimal.dec 100 0)) st1) in
  wallets (walletDb st1) =
    [Wallet.mk 0 "alice" "USD" (Decimal.dec 900 0);
     Wallet.mk 1 "bob" "EUR" (Decimal.dec 110 0)] /\
  map ForexOrder.userId (forexOrders st1) = ["bob"] /\
  map ForexOrder.status (forexOrders st1) = [OrderStatus.COMPLETED] /\
  wallets (walletDb st2) =
    [Wallet.mk 0 "alice" "USD" (Decimal.dec 800 0);
     Wallet.mk 1 "bob" "EUR" (Decimal.dec 220 0)].
Proof. cbv zeta. repeat split. Qed.

(** Which wallet of a currency is debited is the database's choice.  With
    two USD wallets, the purchase debits Alice's when her row comes first and
    Bob's when his does. *)
Example lookup_by_currency_follows_the_database :
  let db := Fixture.dbOf [Fixture.usd1000;
                          Wallet.mk 1 "bob" "USD" (Decimal.dec 500 0)] in
  let request := {| bf_userId := "bob"; bf_baseCurrency := "USD";
                    bf_targetCurrency := "EUR";
                    bf_amount := Decimal.dec 100 0 |} in
  let bobsFirst := {| convertCurrency := Replied (Some Fixture.rate_1_10);
                      fault := None; firstRow := fun _ => 1 |} in
  map Wallet.balance
    (wallets (snd (WalletService.buyForex request
                     (Fixture.walletEnvOf Fixture.rate_1_10 None) db))) =
    [Decimal.dec 900 0; Decimal.dec 500 0; Decimal.dec 110 0] /\
  map Wallet.balance
    (wallets (snd (WalletService.buyForex request bobsFirst db))) =
    [Decimal.dec 1000 0; Decimal.dec 400 0; Decimal.dec 110 0].
Proof. cbv zeta. repeat split. Qed.

(** A wallet whose balance is not negative passes the funds check for every
    negative amount. *)
Lemma negative_amount_passes_the_funds_check (wallet : Wallet.t)
    (amount : Decimal.t) :
  Decimal.isNeg (Wallet.balance wallet) = false ->
  Decimal.isNeg amount = true ->
  WalletService.validateSufficientFund wallet amount = Ok true.
Proof.
  unfold Decimal.isNeg, WalletService.validateSufficientFund, Decimal.lessThan,
    Decimal.scaled.
  intros Hb Ha. apply Z.ltb_ge in Hb. apply Z.ltb_lt in Ha.
  set (e := Z.min (Decimal.exp (Wallet.balance wallet)) (Decimal.exp amount)).
  assert (Hp1 : (0 < 10 ^ (Decimal.exp (Wallet.balance wallet) - e))%Z)
    by (apply Z.pow_pos_nonneg; lia).
  assert (Hp2 : (0 < 10 ^ (Decimal.exp amount - e))%Z)
    by (apply Z.pow_pos_nonneg; lia).
  destruct (Z.ltb_spec
              (Decimal.coef (Wallet.balance wallet) *
               10 ^ (Decimal.exp (Wallet.balance wallet) - e))
              (Decimal.coef amount * 10 ^ (Decimal.exp amount - e)))
    as [Hlt|_]; [|reflexivity].
  nia.
Qed.

(** C4 (code bug). Nothing checks the sign of the amount of a purchase: the
    DTO of buy-forex asks for a number string only, and a balance is never
    less than a negative amount.  From the empty database, Alice's USD wallet
    is created with balance 0 by [getWalletBalance]; buying for -100 USD at
    1.10 then raises it to 100 and leaves the new EUR wallet at -110. *)
Theorem negative_purchase_leaves_negative_balance :
  let db1 := snd (WalletService.getWalletBalance
                    {| gb_userId := "alice"; gb_walletCurrency := "USD" |}
                    (Fixture.dbOf [])) in
  let st' := snd (TransactionsService.buyForex
                    (Fixture.rateIs Fixture.rate_1_10)
                    (Fixture.buy "alice" (Decimal.dec (-100) 0))
                    (set_walletDb db1 (Fixture.stateOf []))) in
  wallets db1 = [Wallet.mk 0 "alice" "USD" (Decimal.dec 0 0)] /\
  map ForexOrder.status (forexOrders st') = [OrderStatus.COMPLETED] /\
  wallets (walletDb st') =
    [Wallet.mk 0 "alice" "USD" (Decimal.dec 100 0);
     Wallet.mk 1 "alice" "EUR" (Decimal.dec (-110) 0)] /\
  map Decimal.isNeg (map Wallet.balance (wallets (walletDb st'))) =
    [false; true] /\
  map WalletTransaction.amount (walletTransactions (walletDb st')) =
    [Decimal.dec (-100) 0; Decimal.dec (-110) 0].
Proof. cbv zeta. repeat split. Qed.

(** * The rest of the services *)

(** ** What the wallet calls do to the tables *)

(** A fund or a withdrawal either leaves the database as it is or is one
    [post] on a wallet of the requesting user. *)
Lemma handleWalletTransaction_cases
    (request : WalletAmountRequest) (type : TransactionType.t)
    (description : string)
    (updateBalance : Decimal.t -> Decimal.t -> Decimal.t)
    (validate : Wallet.t -> Decimal.t -> Result bool)
    (fault : option nat) (db : WalletDb) :
  (forall (b : Decimal.t) (x : WalletTransaction.t),
      WalletTransaction.type x = type ->
      updateBalance b (WalletTransaction.amount x) = applyEntry b x) ->
  snd (WalletService.handleWalletTransaction request type description
         updateBalance validate fault db) = db \/
  exists w : Wallet.t,
    In w (wallets db) /\
    Wallet.id w = wr_walletId request /\
    Wallet.userId w = wr_userId request /\
    errorCode (validate w (wr_amount request)) = None /\
    snd (WalletService.handleWalletTransaction request type description
           updateBalance validate fault db) =
    post w type (wr_amount request) description db.
Proof.
  intros Hupd. unfold WalletService.handleWalletTransaction.
  destruct (find _ (wallets db)) as [w|] eqn:Hfind; [|left; reflexivity].
  apply find_some in Hfind. destruct Hfind as [Hin Hpred].
  apply andb_true_iff in Hpred. destruct Hpred as [Hid Huser].
  apply Nat.eqb_eq in Hid. apply String.eqb_eq in Huser.
  destruct (validate w (wr_amount request)) as [b|e] eqn:Hval;
    [|left; reflexivity].
  unfold transaction, bind, WalletService.saveWallet,
    WalletService.insertWalletTransaction, write.
  destruct (raises fault 0); [left; reflexivity|].
  destruct (raises fault 1); [left; reflexivity|].
  right. exists w.
  split; [assumption|]. split; [assumption|]. split; [assumption|].
  split; [rewrite Hval; reflexivity|].
  cbn [snd set_wallets set_walletTransactions wallets walletTransactions].
  unfold post, WalletService.createWalletTransaction. cbv zeta.
  rewrite <- (Hupd (Wallet.balance w)
                (WalletTransaction.mk O (Wallet.id w) type (wr_amount request)
                   (Wallet.currency w) description)) by reflexivity.
  reflexivity.
Qed.

(** A purchase either leaves the database as it is or is a DEBIT [post] on
    the wallet the lookup by base currency returns, followed by a CREDIT
    [post] on the wallet the lookup by target currency returns, inserted for
    the requesting user when there is none. *)
Lemma buyForex_cases (request : BuyForexRequest) (env : WalletEnv)
    (db : WalletDb) :
  snd (WalletService.buyForex request env db) = db \/
  exists (baseWallet : Wallet.t) (exchangeRate : Decimal.t),
    findOneWhere (firstRow env (bf_baseCurrency request))
      (fun w => String.eqb (Wallet.currency w) (bf_baseCurrency request))
      (wallets db) = Some baseWallet /\
    Decimal.lessThan (Wallet.balance baseWallet) (bf_amount request) = false /\
    rate env = Some exchangeRate /\
    snd (WalletService.buyForex request env db) =
    match findOneWhere (firstRow env (bf_targetCurrency request))
            (fun w => String.eqb (Wallet.currency w)
                                 (bf_targetCurrency request))
            (wallets db) with
    | Some targetWallet =>
        post targetWallet TransactionType.CREDIT
          (Decimal.mul (bf_amount request) exchangeRate)
          "Credit for forex purchase"
          (post baseWallet TransactionType.DEBIT (bf_amount request)
                "Debit for forex purchase" db)
    | None =>
        post (newWallet (bf_userId request) (bf_targetCurrency request) db)
          TransactionType.CREDIT
          (Decimal.mul (bf_amount request) exchangeRate)
          "Credit for forex purchase"
          (post baseWallet TransactionType.DEBIT (bf_amount request)
                "Debit for forex purchase"
                (addWallet (bf_userId request) (bf_targetCurrency request) db))
    end.
Proof.
  unfold WalletService.buyForex, WalletService.findBaseWalletOrFail.
  destruct (findOneWhere _ _ (wallets db)) as [baseWallet|] eqn:Hbase;
    [|left; reflexivity].
  unfold WalletService.validateSufficientFund.
  destruct (Decimal.lessThan (Wallet.balance baseWallet) (bf_amount request))
    eqn:Hfund; [left; reflexivity|].
  destruct (WalletService.fetchExchangeRate env) as [exchangeRate|e] eqn:Hrate;
    [|left; reflexivity].
  apply fetchExchangeRate_rate in Hrate.
  unfold transaction, WalletService.buyForexTxn,
    WalletService.getOrCreateTargetWalletInTxn, bind, read.
  destruct (findOneWhere (firstRow env (bf_targetCurrency request))
              (fun w => String.eqb (Wallet.currency w)
                                   (bf_targetCurrency request))
              (wallets db)) as [targetWallet|] eqn:Htarget;
    unfold ret, WalletService.insertWallet, WalletService.saveWallet,
      WalletService.insertWalletTransaction, write;
    repeat match goal with
           | |- context [raises ?f ?n] =>
               destruct (raises f n); [left; reflexivity|]
           end;
    right; exists baseWallet, exchangeRate;
    (split; [reflexivity|]); (split; [exact Hfund|]); (split; [exact Hrate|]);
    cbn [snd set_wallets set_walletTransactions wallets walletTransactions];
    unfold post, addWallet, newWallet, WalletService.createWalletTransaction;
    cbn [set_wallets wallets walletTransactions applyEntry
         WalletTransaction.type WalletTransaction.amount Wallet.with_balance
         Wallet.with_id Wallet.id Wallet.userId Wallet.currency Wallet.balance
         WalletTransaction.with_id];
    rewrite <- app_assoc; reflexivity.
Qed.

Section MoreTableFacts.
Context {R : Type} (key : R -> nat).

Lemma unique_row (tbl : list R) (r r' : R) :
  NoDup (map key tbl) -> In r tbl -> In r' tbl -> key r = key r' -> r = r'.
Proof.
  induction tbl as [|x tbl IH]; simpl; [tauto|].
  intros Hnd Hr Hr' Hk. inversion Hnd as [|k ks Hnotin Hnd']; subst.
  destruct Hr as [->|Hr], Hr' as [->|Hr'].
  - reflexivity.
  - exfalso. apply Hnotin. rewrite Hk. apply in_map. exact Hr'.
  - exfalso. apply Hnotin. rewrite <- Hk. apply in_map. exact Hr.
  - apply IH; assumption.
Qed.

Lemma findById_present (tbl : list R) (r : R) :
  In r tbl -> findById key (key r) tbl <> None.
Proof.
  intros Hin Hnone. unfold findById in Hnone.
  apply (find_none _ _ Hnone) in Hin. rewrite Nat.eqb_refl in Hin.
  discriminate.
Qed.

Lemma findById_stored (tbl : list R) (i : nat) :
  In i (map key tbl) -> findById key i tbl <> None.
Proof.
  intros Hin. apply in_map_iff in Hin. destruct Hin as (r & <- & Hr).
  apply findById_present. exact Hr.
Qed.

Lemma saveRow_stored (tbl : list R) (r : R) :
  In (key r) (map key tbl) ->
  saveRow key r tbl = updateById key (key r) (fun _ => r) tbl.
Proof.
  intros Hin. unfold saveRow.
  destruct (findById key (key r) tbl) eqn:E; [reflexivity|].
  apply findById_stored in Hin. congruence.
Qed.

Lemma map_updateById {B : Type} (g : R -> B) (i : nat) (f : R -> R)
    (tbl : list R) :
  (forall r, In r tbl -> key r = i -> g (f r) = g r) ->
  map g (updateById key i f tbl) = map g tbl.
Proof.
  intros Hg. unfold updateById. rewrite map_map. apply map_ext_in.
  intros r Hr. destruct (Nat.eqb_spec (key r) i) as [Hk|Hk]; [|reflexivity].
  apply Hg; assumption.
Qed.

Lemma in_updateById (i : nat) (f : R -> R) (tbl : list R) (v : R) :
  In v (updateById key i f tbl) ->
  (exists r, In r tbl /\ key r = i /\ v = f r) \/ (In v tbl /\ key v <> i).
Proof.
  unfold updateById. intros Hin. apply in_map_iff in Hin.
  destruct Hin as (r & Hv & Hr).
  destruct (Nat.eqb_spec (key r) i) as [Hk|Hk].
  - left. exists r. auto.
  - right. subst v. auto.
Qed.

Lemma in_updateById_other (i : nat) (f : R -> R) (tbl : list R) (v : R) :
  In v tbl -> key v <> i -> In v (updateById key i f tbl).
Proof.
  intros Hin Hk. unfold updateById. apply in_map_iff. exists v.
  split; [|exact Hin].
  destruct (Nat.eqb_spec (key v) i); [contradiction|reflexivity].
Qed.

Lemma findById_saved (tbl : list R) (r : R) :
  In (key r) (map key tbl) ->
  findById key (key r) (saveRow key r tbl) = Some r.
Proof.
  intros Hin. rewrite (saveRow_stored _ _ Hin).
  unfold findById, updateById.
  induction tbl as [|x tbl IH]; simpl in *; [tauto|].
  destruct (Nat.eqb_spec (key x) (key r)) as [E|E].
  - simpl. rewrite Nat.eqb_refl. reflexivity.
  - simpl. destruct (Nat.eqb_spec (key x) (key r)); [contradiction|].
    apply IH. destruct Hin as [Hin|Hin]; [contradiction|exact Hin].
Qed.

Lemma freshId_not_stored (tbl : list R) :
  ~ In (freshId key tbl) (map key tbl).
Proof.
  intros Hin. apply in_map_iff in Hin. destruct Hin as (r & Hk & Hr).
  apply (key_lt_freshId key) in Hr. lia.
Qed.
End MoreTableFacts.

Lemma NoDup_snoc {A : Type} (l : list A) (a : A) :
  NoDup l -> ~ In a l -> NoDup (l ++ [a]).
Proof.
  induction l as [|x l IH]; simpl; intros Hnd Hnotin.
  - constructor; [simpl; tauto|constructor].
  - inversion Hnd as [|y ys Hx Hnd']; subst. constructor.
    + rewrite in_app_iff. simpl. intuition congruence.
    + apply IH; [assumption|tauto].
Qed.

Lemma filter_nothing {A : Type} (f : A -> bool) (l : list A) :
  (forall x, In x l -> f x = false) -> filter f l = [].
Proof.
  induction l as [|x l IH]; simpl; intros H; [reflexivity|].
  rewrite (H x) by (left; reflexivity). apply IH. intros y Hy. apply H. right.
  exact Hy.
Qed.

Lemma replay_snoc (walletId : nat) (ledger : list WalletTransaction.t)
    (x : WalletTransaction.t) :
  replay walletId (ledger ++ [x]) =
  if Nat.eqb (WalletTransaction.wallet x) walletId
  then applyEntry (replay walletId ledger) x
  else replay walletId ledger.
Proof.
  unfold replay. rewrite filter_app. simpl.
  destruct (Nat.eqb (WalletTransaction.wallet x) walletId).
  - rewrite fold_left_app. reflexivity.
  - rewrite app_nil_r. reflexivity.
Qed.

(** ** The wallet table keeps its keys *)

Lemma In_stored (w : Wallet.t) (db : WalletDb) : In w (wallets db) -> stored w db.
Proof. intros H. exists w. auto. Qed.

Lemma post_keeps_table (w : Wallet.t) (type : TransactionType.t)
    (amount : Decimal.t) (description : string) (db : WalletDb) :
  uniqueIds db -> onePerUserCurrency db -> stored w db ->
  uniqueIds (post w type amount description db) /\
  onePerUserCurrency (post w type amount description db) /\
  (forall v, stored v db -> stored v (post w type amount description db)).
Proof.
  intros Hids Hpairs (r0 & Hr0 & Hid0 & Hu0 & Hc0).
  unfold uniqueIds, onePerUserCurrency, post, stored in *. cbv zeta.
  cbn [wallets].
  set (w' := Wallet.with_balance _ w).
  assert (Hw' : Wallet.id w' = Wallet.id w) by reflexivity.
  assert (Hin : In (Wallet.id w') (map Wallet.id (wallets db))).
  { rewrite Hw', <- Hid0. apply in_map. exact Hr0. }
  rewrite (saveRow_stored Wallet.id _ _ Hin). rewrite Hw'.
  assert (Hsame : forall r, In r (wallets db) -> Wallet.id r = Wallet.id w ->
                            r = r0).
  { intros r Hr Hk. apply (unique_row Wallet.id (wallets db)); try assumption.
    congruence. }
  split; [|split].
  - rewrite (map_updateById Wallet.id Wallet.id); [exact Hids|].
    intros r _ Hk. congruence.
  - rewrite (map_updateById Wallet.id
               (fun x => (Wallet.userId x, Wallet.currency x)));
      [exact Hpairs|].
    intros r Hr Hk. rewrite (Hsame r Hr Hk). cbn. congruence.
  - intros v (r & Hr & Hid & Hu & Hc).
    destruct (Nat.eq_dec (Wallet.id r) (Wallet.id w)) as [Hk|Hk].
    + exists w'. rewrite (Hsame r Hr Hk) in Hid, Hu, Hc.
      split; [|cbn; repeat split; congruence].
      unfold updateById. apply in_map_iff. exists r0. split; [|exact Hr0].
      rewrite Hid0, Nat.eqb_refl. reflexivity.
    + exists r. split; [|auto].
      apply in_updateById_other; assumption.
Qed.

Lemma addWallet_keeps_table (userId currency : string) (db : WalletDb) :
  uniqueIds db -> onePerUserCurrency db ->
  (forall w, In w (wallets db) -> ownedBy userId currency w = false) ->
  uniqueIds (addWallet userId currency db) /\
  onePerUserCurrency (addWallet userId currency db) /\
  (forall v, stored v db -> stored v (addWallet userId currency db)) /\
  In (newWallet userId currency db) (wallets (addWallet userId currency db)).
Proof.
  intros Hids Hpairs Hnone.
  unfold uniqueIds, onePerUserCurrency, addWallet, stored in *.
  cbn [wallets set_wallets]. rewrite !map_app. cbn [map].
  split; [|split; [|split]].
  - apply NoDup_snoc; [exact Hids|]. apply freshId_not_stored.
  - apply NoDup_snoc; [exact Hpairs|]. intros Hin.
    apply in_map_iff in Hin. destruct Hin as (w & Hw & Hin).
    specialize (Hnone w Hin). unfold ownedBy in Hnone. cbn in Hw.
    injection Hw as Hu Hc. rewrite Hu, Hc, !String.eqb_refl in Hnone.
    discriminate.
  - intros v (r & Hr & Hrest). exists r. split; [|exact Hrest].
    apply in_or_app. left. exact Hr.
  - apply in_or_app. right. left. reflexivity.
Qed.

Lemma createWallet_cases (request : CreateWalletRequest) (db : WalletDb) :
  snd (WalletService.createWallet request db) =
  match find (ownedBy (cw_userId request) (cw_currency request)) (wallets db) with
  | Some _ => db
  | None => addWallet (cw_userId request) (cw_currency request) db
  end.
Proof.
  unfold WalletService.createWallet, ownedBy.
  destruct (find _ (wallets db)); reflexivity.
Qed.

Lemma getWalletBalance_cases (request : GetWalletBalanceRequest)
    (db : WalletDb) :
  snd (WalletService.getWalletBalance request db) =
  match find (ownedBy (gb_userId request) (gb_walletCurrency request))
             (wallets db) with
  | Some _ => db
  | None => addWallet (gb_userId request) (gb_walletCurrency request) db
  end.
Proof.
  unfold WalletService.getWalletBalance, WalletService.createWallet, ownedBy.
  cbn [cw_userId cw_currency].
  destruct (find _ (wallets db)); reflexivity.
Qed.

Lemma serve_keeps_table (call : WalletCall) (db : WalletDb) :
  uniqueIds db -> onePerUserCurrency db ->
  uniqueIds (serve call db) /\ onePerUserCurrency (serve call db).
Proof.
  intros Hids Hpairs. destruct call as [r|r|r f|r f|r env]; cbn [serve].
  - rewrite createWallet_cases.
    destruct (find _ (wallets db)) eqn:E; [auto|].
    destruct (addWallet_keeps_table (cw_userId r) (cw_currency r) db Hids Hpairs
                (find_none _ _ E)) as (H1 & H2 & _). auto.
  - rewrite getWalletBalance_cases.
    destruct (find _ (wallets db)) eqn:E; [auto|].
    destruct (addWallet_keeps_table (gb_userId r) (gb_walletCurrency r) db
                Hids Hpairs (find_none _ _ E)) as (H1 & H2 & _). auto.
  - unfold WalletService.fundWallet.
    destruct (handleWalletTransaction_cases r TransactionType.FUND
                "Fund wallet" (fun balance amount => Decimal.plus balance amount)
                (fun _ _ => Ok true) f db) as [->|(w & Hw & _ & _ & _ & ->)].
    + intros b x Hx. unfold applyEntry. rewrite Hx. reflexivity.
    + auto.
    + destruct (post_keeps_table w TransactionType.FUND (wr_amount r)
                  "Fund wallet" db Hids Hpairs (In_stored w db Hw))
        as (H1 & H2 & _). auto.
  - unfold WalletService.withdrawWallet.
    destruct (handleWalletTransaction_cases r TransactionType.WITHDRAW
                "Withdrawal from wallet"
                (fun balance amount => Decimal.minus balance amount)
                WalletService.validateSufficientFund f db)
      as [->|(w & Hw & _ & _ & _ & ->)].
    + intros b x Hx. unfold applyEntry. rewrite Hx. reflexivity.
    + auto.
    + destruct (post_keeps_table w TransactionType.WITHDRAW (wr_amount r)
                  "Withdrawal from wallet" db Hids Hpairs (In_stored w db Hw))
        as (H1 & H2 & _). auto.
  - destruct (buyForex_cases r env db)
      as [->|(baseWallet & exchangeRate & Hbase & _ & _ & ->)]; [auto|].
    apply findOneWhere_some in Hbase. destruct Hbase as [Hbase _].
    destruct (findOneWhere (firstRow env (bf_targetCurrency r))
                (fun w => String.eqb (Wallet.currency w) (bf_targetCurrency r))
                (wallets db)) as [targetWallet|] eqn:Htarget.
    + apply findOneWhere_some in Htarget. destruct Htarget as [Htarget _].
      destruct (post_keeps_table baseWallet TransactionType.DEBIT (bf_amount r)
                  "Debit for forex purchase" db Hids Hpairs
                  (In_stored _ db Hbase)) as (H1 & H2 & H3).
      destruct (post_keeps_table targetWallet TransactionType.CREDIT
                  (Decimal.mul (bf_amount r) exchangeRate)
                  "Credit for forex purchase" _ H1 H2
                  (H3 _ (In_stored _ db Htarget))) as (H4 & H5 & _).
      auto.
    + destruct (addWallet_keeps_table (bf_userId r) (bf_targetCurrency r) db
                  Hids Hpairs) as (H1 & H2 & H3 & H4).
      { intros w Hw. unfold ownedBy.
        rewrite (findOneWhere_none _ _ _ Htarget w Hw). apply andb_false_r. }
      destruct (post_keeps_table baseWallet TransactionType.DEBIT (bf_amount r)
                  "Debit for forex purchase" _ H1 H2
                  (H3 _ (In_stored _ db Hbase))) as (H5 & H6 & H7).
      destruct (post_keeps_table
                  (newWallet (bf_userId r) (bf_targetCurrency r) db)
                  TransactionType.CREDIT
                  (Decimal.mul (bf_amount r) exchangeRate)
                  "Credit for forex purchase" _ H5 H6
                  (H7 _ (In_stored _ _ H4))) as (H8 & H9 & _).
      auto.
Qed.

(** Whatever the wallet service is asked, in whatever order, wallet ids stay
    unique and no user gets a second wallet in a currency. *)
Theorem wallet_keys_stay_unique (calls : list WalletCall) (db : WalletDb) :
  uniqueIds db -> onePerUserCurrency db ->
  uniqueIds (serveAll calls db) /\ onePerUserCurrency (serveAll calls db).
Proof.
  revert db. induction calls as [|call calls IH]; intros db Hids Hpairs.
  - auto.
  - cbn [serveAll fold_left].
    destruct (serve_keeps_table call db Hids Hpairs) as [H1 H2].
    apply (IH (serve call db) H1 H2).
Qed.

Lemma wallet_keys_stay_unique_witness :
  let calls :=
    [GetWalletBalance {| gb_userId := "alice"; gb_walletCurrency := "USD" |};
     FundWallet {| wr_walletId := 0; wr_userId := "alice";
                   wr_amount := Decimal.dec 1000 0 |} None;
     BuyForex {| bf_userId := "bob"; bf_baseCurrency := "USD";
                 bf_targetCurrency := "EUR"; bf_amount := Decimal.dec 100 0 |}
              (Fixture.walletEnvOf Fixture.rate_1_10 None);
     CreateWallet {| cw_userId := "bob"; cw_currency := "EUR" |}] in
  uniqueIds (serveAll calls (Fixture.dbOf [])) /\
  onePerUserCurrency (serveAll calls (Fixture.dbOf [])).
Proof.
  cbv zeta. apply wallet_keys_stay_unique; constructor.
Defined.

(** ** The ledger replays to the balances *)

Lemma post_wallets (w : Wallet.t) (type : TransactionType.t)
    (amount : Decimal.t) (description : string) (db : WalletDb) :
  stored w db ->
  wallets (post w type amount description db) =
  updateById Wallet.id (Wallet.id w)
    (fun _ => Wallet.with_balance
                (applyEntry (Wallet.balance w)
                   (WalletTransaction.mk O (Wallet.id w) type amount
                      (Wallet.currency w) description)) w)
    (wallets db).
Proof.
  intros (r & Hr & Hid & _). unfold post. cbv zeta. cbn [wallets].
  rewrite (saveRow_stored Wallet.id); [reflexivity|].
  cbn [Wallet.with_balance Wallet.id]. rewrite <- Hid. apply in_map. exact Hr.
Qed.

Lemma post_consistent (w : Wallet.t) (type : TransactionType.t)
    (amount : Decimal.t) (description : string) (db : WalletDb) :
  consistent db -> In w (wallets db) ->
  consistent (post w type amount description db).
Proof.
  intros (Hids & Hpairs & Hfk & Hbal) Hw.
  pose proof (In_stored w db Hw) as Hst.
  destruct (post_keeps_table w type amount description db Hids Hpairs Hst)
    as (H1 & H2 & _).
  pose proof (post_wallets w type amount description db Hst) as Hwallets.
  assert (Hmapid : map Wallet.id (wallets (post w type amount description db)) =
                   map Wallet.id (wallets db)).
  { rewrite Hwallets. apply (map_updateById Wallet.id Wallet.id).
    intros r _ Hk. cbn. congruence. }
  split; [exact H1|]. split; [exact H2|]. split.
  - intros x Hx. rewrite Hmapid. unfold post in Hx. cbn [walletTransactions] in Hx.
    apply in_app_or in Hx. destruct Hx as [Hx|[<-|[]]].
    + apply Hfk. exact Hx.
    + cbn. apply in_map. exact Hw.
  - intros v Hv. rewrite Hwallets in Hv.
    unfold post at 1. cbn [walletTransactions]. rewrite replay_snoc.
    cbn [WalletTransaction.with_id WalletTransaction.wallet].
    apply in_updateById in Hv. destruct Hv as [(r & Hr & Hk & ->)|[Hv Hk]].
    + cbn [Wallet.with_balance Wallet.id Wallet.balance].
      rewrite Nat.eqb_refl. rewrite <- (Hbal w Hw). reflexivity.
    + destruct (Nat.eqb_spec (Wallet.id w) (Wallet.id v)) as [E|_];
        [congruence|]. apply Hbal. exact Hv.
Qed.

Lemma addWallet_consistent (userId currency : string) (db : WalletDb) :
  consistent db ->
  (forall w, In w (wallets db) -> ownedBy userId currency w = false) ->
  consistent (addWallet userId currency db).
Proof.
  intros (Hids & Hpairs & Hfk & Hbal) Hnone.
  destruct (addWallet_keeps_table userId currency db Hids Hpairs Hnone)
    as (H1 & H2 & _ & _).
  split; [exact H1|]. split; [exact H2|]. split.
  - intros x Hx. unfold addWallet. cbn [wallets set_wallets walletTransactions] in *.
    rewrite map_app. apply in_or_app. left. apply Hfk. exact Hx.
  - intros v Hv. unfold addWallet in *.
    cbn [wallets set_wallets walletTransactions] in *.
    apply in_app_or in Hv. destruct Hv as [Hv|[<-|[]]].
    + apply Hbal. exact Hv.
    + cbn [newWallet Wallet.balance Wallet.id]. unfold replay.
      rewrite filter_nothing; [reflexivity|].
      intros x Hx. apply Nat.eqb_neq. intros E.
      apply (freshId_not_stored Wallet.id (wallets db)). rewrite <- E.
      apply Hfk. exact Hx.
Qed.

Lemma post_keeps_other_rows (w v : Wallet.t) (type : TransactionType.t)
    (amount : Decimal.t) (description : string) (db : WalletDb) :
  stored w db -> In v (wallets db) -> Wallet.id v <> Wallet.id w ->
  In v (wallets (post w type amount description db)).
Proof.
  intros Hst Hv Hk. rewrite (post_wallets _ _ _ _ _ Hst).
  apply in_updateById_other; assumption.
Qed.

Lemma serve_consistent (call : WalletCall) (db : WalletDb) :
  twoCurrencies call -> consistent db -> consistent (serve call db).
Proof.
  intros Htwo Hc. destruct call as [r|r|r f|r f|r env]; cbn [serve].
  - rewrite createWallet_cases.
    destruct (find _ (wallets db)) eqn:E; [exact Hc|].
    apply addWallet_consistent; [exact Hc|]. exact (find_none _ _ E).
  - rewrite getWalletBalance_cases.
    destruct (find _ (wallets db)) eqn:E; [exact Hc|].
    apply addWallet_consistent; [exact Hc|]. exact (find_none _ _ E).
  - unfold WalletService.fundWallet.
    destruct (handleWalletTransaction_cases r TransactionType.FUND
                "Fund wallet" (fun balance amount => Decimal.plus balance amount)
                (fun _ _ => Ok true) f db) as [->|(w & Hw & _ & _ & _ & ->)].
    + intros b x Hx. unfold applyEntry. rewrite Hx. reflexivity.
    + exact Hc.
    + apply post_consistent; assumption.
  - unfold WalletService.withdrawWallet.
    destruct (handleWalletTransaction_cases r TransactionType.WITHDRAW
                "Withdrawal from wallet"
                (fun balance amount => Decimal.minus balance amount)
                WalletService.validateSufficientFund f db)
      as [->|(w & Hw & _ & _ & _ & ->)].
    + intros b x Hx. unfold applyEntry. rewrite Hx. reflexivity.
    + exact Hc.
    + apply post_consistent; assumption.
  - cbn [twoCurrencies] in Htwo.
    destruct (buyForex_cases r env db)
      as [->|(baseWallet & exchangeRate & Hbase & _ & _ & ->)]; [exact Hc|].
    apply findOneWhere_some in Hbase. destruct Hbase as [Hbase Hbc].
    apply String.eqb_eq in Hbc.
    destruct (findOneWhere (firstRow env (bf_targetCurrency r))
                (fun w => String.eqb (Wallet.currency w) (bf_targetCurrency r))
                (wallets db)) as [targetWallet|] eqn:Htarget.
    + apply findOneWhere_some in Htarget. destruct Htarget as [Htarget Htc].
      apply String.eqb_eq in Htc.
      apply post_consistent.
      * apply post_consistent; assumption.
      * apply post_keeps_other_rows;
          [apply In_stored; exact Hbase|exact Htarget|].
        intros Hk. destruct Hc as (Hids & _).
        pose proof (unique_row Wallet.id (wallets db) targetWallet baseWallet
                      Hids Htarget Hbase Hk) as E.
        subst targetWallet. congruence.
    + assert (Hnone : forall w, In w (wallets db) ->
                        ownedBy (bf_userId r) (bf_targetCurrency r) w = false).
      { intros w Hw. unfold ownedBy.
        rewrite (findOneWhere_none _ _ _ Htarget w Hw). apply andb_false_r. }
      pose proof (addWallet_consistent _ _ db Hc Hnone) as Hc1.
      assert (Hbase1 : In baseWallet
                         (wallets (addWallet (bf_userId r) (bf_targetCurrency r) db))).
      { unfold addWallet. cbn [wallets set_wallets]. apply in_or_app. left.
        exact Hbase. }
      apply post_consistent.
      * apply post_consistent; assumption.
      * apply post_keeps_other_rows; [apply In_stored; exact Hbase1| |].
        -- unfold addWallet. cbn [wallets set_wallets]. apply in_or_app.
           right. left. reflexivity.
        -- cbn [newWallet Wallet.id]. intros Hk.
           apply (freshId_not_stored Wallet.id (wallets db)). rewrite Hk.
           apply in_map. exact Hbase.
Qed.

(** The balance invariant, in the arithmetic of decimal.js: after any
    sequence of wallet creations, fundings, withdrawals and purchases between
    two different currencies, committed or failed, every ledger row belongs to
    a stored wallet and every wallet's balance is what its own ledger rows,
    applied in order to 0, give. *)
Theorem balances_replay_the_ledger (calls : list WalletCall) (db : WalletDb) :
  Forall twoCurrencies calls ->
  consistent db ->
  consistent (serveAll calls db).
Proof.
  revert db. induction calls as [|call calls IH]; intros db Htwo Hc.
  - exact Hc.
  - inversion Htwo as [|c cs Hcall Hrest]; subst.
    cbn [serveAll fold_left]. apply IH; [exact Hrest|].
    apply serve_consistent; assumption.
Qed.

Lemma balances_replay_the_ledger_witness :
  let calls :=
    [GetWalletBalance {| gb_userId := "alice"; gb_walletCurrency := "USD" |};
     FundWallet {| wr_walletId := 0; wr_userId := "alice";
                   wr_amount := Decimal.dec 1000 0 |} None;
     BuyForex {| bf_userId := "alice"; bf_baseCurrency := "USD";
                 bf_targetCurrency := "EUR"; bf_amount := Decimal.dec 100 0 |}
              (Fixture.walletEnvOf Fixture.rate_1_10 None);
     WithdrawWallet {| wr_walletId := 1; wr_userId := "alice";
                       wr_amount := Decimal.dec 10 0 |} None] in
  consistent (serveAll calls (Fixture.dbOf [])) /\
  map Wallet.balance (wallets (serveAll calls (Fixture.dbOf []))) =
    [Decimal.dec 900 0; Decimal.dec 100 0].
Proof.
  cbv zeta. split; [|reflexivity].
  apply balances_replay_the_ledger.
  - repeat constructor; discriminate.
  - repeat split; try constructor; intros x [].
Defined.

(** ** Debits *)

Lemma strip_fuel_nonneg (fuel : nat) (c e : Z) :
  (0 <= c)%Z -> (0 <= Decimal.coef (Decimal.strip_fuel fuel c e))%Z.
Proof.
  revert c e. induction fuel as [|fuel IH]; intros c e Hc; simpl; [exact Hc|].
  destruct (Z.eqb_spec c 0); [simpl; lia|].
  destruct (Z.eqb_spec (c mod 10) 0); [|exact Hc].
  apply IH. apply Z.div_pos; lia.
Qed.

Lemma finalise_nonneg (d : Decimal.t) :
  (0 <= Decimal.coef d)%Z -> (0 <= Decimal.coef (Decimal.finalise d))%Z.
Proof.
  intros Hd. unfold Decimal.finalise, Decimal.normalise.
  apply strip_fuel_nonneg. unfold Decimal.round.
  destruct (Z.leb_spec (Decimal.digits (Decimal.coef d) - Decimal.precision) 0)
    as [_|Hk]; [exact Hd|].
  cbn [Decimal.coef].
  set (p := (10 ^ (Decimal.digits (Decimal.coef d) - Decimal.precision))%Z).
  assert (Hp : (0 < p)%Z) by (apply Z.pow_pos_nonneg; lia).
  assert (Hq : (0 <= Z.abs (Decimal.coef d) / p)%Z)
    by (apply Z.div_pos; lia).
  assert (Hs : (0 <= Z.sgn (Decimal.coef d))%Z) by lia.
  destruct (p <=? 2 * (Z.abs (Decimal.coef d) mod p))%Z; nia.
Qed.

(** A difference that the funds check lets through is not negative. *)
Lemma minus_not_negative (a b : Decimal.t) :
  Decimal.lessThan a b = false -> Decimal.isNeg (Decimal.minus a b) = false.
Proof.
  unfold Decimal.lessThan, Decimal.isNeg, Decimal.minus. intros Hlt.
  apply Z.ltb_ge in Hlt. apply Z.ltb_ge. apply finalise_nonneg.
  unfold Decimal.exact_plus, Decimal.neg, Decimal.scaled in *.
  cbn [Decimal.coef Decimal.exp]. lia.
Qed.

(** A withdrawal that succeeds never overdraws: the wallet it names is stored
    with a balance that is not negative, the balance the answer shows. *)
Theorem withdrawal_never_overdraws
    (request : WalletAmountRequest) (fault : option nat) (db db' : WalletDb)
    (entity : WalletEntity) :
  WalletService.withdrawWallet request fault db = (Ok entity, db') ->
  exists w' : Wallet.t,
    findById Wallet.id (wr_walletId request) (wallets db') = Some w' /\
    Wallet.userId w' = wr_userId request /\
    Decimal.isNeg (Wallet.balance w') = false /\
    entity = WalletService.createWalletEntity w'.
Proof.
  unfold WalletService.withdrawWallet, WalletService.handleWalletTransaction.
  destruct (find _ (wallets db)) as [w|] eqn:Hfind; [|discriminate].
  apply find_some in Hfind. destruct Hfind as [Hin Hpred].
  apply andb_true_iff in Hpred. destruct Hpred as [Hid Huser].
  apply Nat.eqb_eq in Hid. apply String.eqb_eq in Huser.
  unfold WalletService.validateSufficientFund.
  destruct (Decimal.lessThan (Wallet.balance w) (wr_amount request)) eqn:Hlt;
    [discriminate|].
  unfold transaction, bind, WalletService.saveWallet,
    WalletService.insertWalletTransaction, write.
  destruct (raises fault 0); [discriminate|].
  destruct (raises fault 1); [discriminate|].
  intros H. injection H as <- <-.
  eexists. split; [|split; [|split; [|reflexivity]]].
  - cbn [wallets set_wallets set_walletTransactions]. rewrite <- Hid.
    apply (findById_saved Wallet.id (wallets db)
             (Wallet.with_balance
                (Decimal.minus (Wallet.balance w) (wr_amount request)) w)).
    cbn [Wallet.with_balance Wallet.id]. apply in_map. exact Hin.
  - exact Huser.
  - cbn [Wallet.with_balance Wallet.balance]. apply minus_not_negative.
    exact Hlt.
Qed.

Lemma withdrawal_never_overdraws_witness :
  exists w' : Wallet.t,
    findById Wallet.id 0
      (wallets (snd (WalletService.withdrawWallet
                       {| wr_walletId := 0; wr_userId := "alice";
                          wr_amount := Decimal.dec 50 0 |} None
                       (Fixture.dbOf [Fixture.usd50])))) = Some w' /\
    Decimal.isNeg (Wallet.balance w') = false.
Proof.
  destruct (withdrawal_never_overdraws
              {| wr_walletId := 0; wr_userId := "alice";
                 wr_amount := Decimal.dec 50 0 |} None
              (Fixture.dbOf [Fixture.usd50]) _ _ eq_refl)
    as (w' & Hfind & _ & Hneg & _).
  exists w'. split; [exact Hfind|exact Hneg].
Defined.

(** ** Answers of the wallet service *)

(** Nobody funds or withdraws from a wallet of somebody else: when the wallet
    id of the request is not the id of a wallet of the requesting user, both
    calls answer NOT_FOUND and write nothing. *)
Theorem foreign_wallet_is_not_found
    (request : WalletAmountRequest) (fault : option nat) (db : WalletDb) :
  (forall w, In w (wallets db) -> Wallet.id w = wr_walletId request ->
             Wallet.userId w <> wr_userId request) ->
  errorCode (fst (WalletService.fundWallet request fault db)) =
    Some status.NOT_FOUND /\
  snd (WalletService.fundWallet request fault db) = db /\
  errorCode (fst (WalletService.withdrawWallet request fault db)) =
    Some status.NOT_FOUND /\
  snd (WalletService.withdrawWallet request fault db) = db.
Proof.
  intros Hforeign.
  assert (Hnone : find (fun w => Nat.eqb (Wallet.id w) (wr_walletId request)
                                 && String.eqb (Wallet.userId w) (wr_userId request))
                       (wallets db) = None).
  { destruct (find _ (wallets db)) as [w|] eqn:E; [|reflexivity].
    apply find_some in E. destruct E as [Hin Hpred].
    apply andb_true_iff in Hpred. destruct Hpred as [Hid Hu].
    apply Nat.eqb_eq in Hid. apply String.eqb_eq in Hu.
    exfalso. exact (Hforeign w Hin Hid Hu). }
  unfold WalletService.fundWallet, WalletService.withdrawWallet,
    WalletService.handleWalletTransaction.
  rewrite Hnone. repeat split.
Qed.

Lemma foreign_wallet_is_not_found_witness :
  errorCode (fst (WalletService.withdrawWallet
                    {| wr_walletId := 0; wr_userId := "bob";
                       wr_amount := Decimal.dec 10 0 |} None
                    (Fixture.dbOf [Fixture.usd1000]))) = Some status.NOT_FOUND /\
  snd (WalletService.withdrawWallet
         {| wr_walletId := 0; wr_userId := "bob";
            wr_amount := Decimal.dec 10 0 |} None
         (Fixture.dbOf [Fixture.usd1000])) = Fixture.dbOf [Fixture.usd1000].
Proof.
  destruct (foreign_wallet_is_not_found
              {| wr_walletId := 0; wr_userId := "bob";
                 wr_amount := Decimal.dec 10 0 |} None
              (Fixture.dbOf [Fixture.usd1000])) as (_ & _ & H3 & H4).
  - intros w [<-|[]] _. discriminate.
  - split; assumption.
Defined.

(** Funding the wallet of the requesting user is all or nothing: when one of
    its two writes raises, the answer is ABORTED and nothing is stored;
    otherwise the wallet is stored with the amount added, one FUND row is
    appended for it, and the answer shows the new balance. *)
Theorem fundWallet_all_or_nothing
    (request : WalletAmountRequest) (fault : option nat) (db : WalletDb)
    (w : Wallet.t) :
  find (fun x => Nat.eqb (Wallet.id x) (wr_walletId request)
                 && String.eqb (Wallet.userId x) (wr_userId request))
       (wallets db) = Some w ->
  WalletService.fundWallet request fault db =
  if raises fault 0 || raises fault 1
  then (Err {| code := status.ABORTED;
               message := "Could not process wallet transaction. Please try again later." |},
        db)
  else (Ok (WalletService.createWalletEntity
              (Wallet.with_balance
                 (Decimal.plus (Wallet.balance w) (wr_amount request)) w)),
        post w TransactionType.FUND (wr_amount request) "Fund wallet" db).
Proof.
  intros Hfind.
  unfold WalletService.fundWallet, WalletService.handleWalletTransaction.
  rewrite Hfind.
  unfold transaction, bind, WalletService.saveWallet,
    WalletService.insertWalletTransaction, write.
  destruct (raises fault 0); [reflexivity|].
  destruct (raises fault 1); reflexivity.
Qed.

Lemma fundWallet_all_or_nothing_witness :
  WalletService.fundWallet
    {| wr_walletId := 0; wr_userId := "alice"; wr_amount := Decimal.dec 25 0 |}
    (Some 1) (Fixture.dbOf [Fixture.usd50]) =
  (Err {| code := status.ABORTED;
          message := "Could not process wallet transaction. Please try again later." |},
   Fixture.dbOf [Fixture.usd50]) /\
  map Wallet.balance
    (wallets (snd (WalletService.fundWallet
                     {| wr_walletId := 0; wr_userId := "alice";
                        wr_amount := Decimal.dec 25 0 |}
                     None (Fixture.dbOf [Fixture.usd50])))) = [Decimal.dec 75 0].
Proof.
  split.
  - exact (fundWallet_all_or_nothing
             {| wr_walletId := 0; wr_userId := "alice";
                wr_amount := Decimal.dec 25 0 |}
             (Some 1) (Fixture.dbOf [Fixture.usd50]) Fixture.usd50 eq_refl).
  - rewrite (fundWallet_all_or_nothing
               {| wr_walletId := 0; wr_userId := "alice";
                  wr_amount := Decimal.dec 25 0 |}
               None (Fixture.dbOf [Fixture.usd50]) Fixture.usd50 eq_refl).
    reflexivity.
Defined.

Lemma find_app_or {A : Type} (f : A -> bool) (l l' : list A) :
  find f (l ++ l') =
  match find f l with Some x => Some x | None => find f l' end.
Proof.
  induction l as [|x l IH]; simpl; [reflexivity|].
  destruct (f x); [reflexivity|exact IH].
Qed.

(** Creating a wallet twice is creating it once: the second call, and any
    later [getWalletBalance] for the pair, answers with the same wallet and
    stores nothing. *)
Theorem createWallet_is_idempotent (request : CreateWalletRequest)
    (db : WalletDb) :
  let answer := WalletService.createWallet request db in
  WalletService.createWallet request (snd answer) = answer /\
  WalletService.getWalletBalance
    {| gb_userId := cw_userId request; gb_walletCurrency := cw_currency request |}
    (snd answer) = answer.
Proof.
  cbv zeta.
  unfold WalletService.getWalletBalance, WalletService.createWallet.
  cbn [gb_userId gb_walletCurrency cw_userId cw_currency].
  destruct (find _ (wallets db)) as [w|] eqn:Hfind.
  - cbn [snd]. rewrite Hfind. split; reflexivity.
  - cbn [snd set_wallets wallets]. rewrite find_app_or, Hfind.
    cbn [find Wallet.userId Wallet.currency]. rewrite !String.eqb_refl.
    cbn [andb]. split; reflexivity.
Qed.

(** Listing the wallets of a user answers NOT_FOUND exactly when the user has
    none; otherwise it answers with the user's wallets, all of them and no
    others, in the order of the table. *)
Theorem getAllUserWallets_lists_the_users_wallets
    (request : GetAllUserWalletsRequest) (db : WalletDb) :
  let mine := filter (fun w => String.eqb (Wallet.userId w) (ga_userId request))
                     (wallets db) in
  match WalletService.getAllUserWallets request db with
  | Err e =>
      code e = status.NOT_FOUND /\
      (forall w, In w (wallets db) -> Wallet.userId w <> ga_userId request)
  | Ok entities =>
      entities <> [] /\
      entities = map WalletService.createWalletEntity mine /\
      (forall e, In e entities -> we_userId e = ga_userId request) /\
      (forall w, In w (wallets db) -> Wallet.userId w = ga_userId request ->
                 In (WalletService.createWalletEntity w) entities)
  end.
Proof.
  cbv zeta. unfold WalletService.getAllUserWallets.
  destruct (filter _ (wallets db)) as [|w0 rest] eqn:Hf.
  - split; [reflexivity|]. intros w Hw Hu.
    assert (Hin : In w (filter (fun x => String.eqb (Wallet.userId x)
                                                    (ga_userId request))
                               (wallets db))).
    { apply filter_In. split; [exact Hw|]. apply String.eqb_eq. exact Hu. }
    rewrite Hf in Hin. exact Hin.
  - split; [discriminate|]. split; [reflexivity|]. split.
    + intros e He. apply in_map_iff in He. destruct He as (w & <- & Hw).
      rewrite <- Hf in Hw. apply filter_In in Hw. destruct Hw as [_ Hu].
      apply String.eqb_eq in Hu. exact Hu.
    + intros w Hw Hu. apply in_map. rewrite <- Hf. apply filter_In.
      split; [exact Hw|]. apply String.eqb_eq. exact Hu.
Qed.

Lemma getWalletBalance_creates_missing_wallet_aux
    (request : GetWalletBalanceRequest) (db : WalletDb) :
  exists w : Wallet.t,
    WalletService.getWalletBalance request db =
      (Ok (WalletService.createWalletEntity w),
       snd (WalletService.getWalletBalance request db)) /\
    In w (wallets (snd (WalletService.getWalletBalance request db))) /\
    Wallet.userId w = gb_userId request.
Proof.
  unfold WalletService.getWalletBalance, WalletService.createWallet.
  cbn [cw_userId cw_currency].
  destruct (find _ (wallets db)) as [w|] eqn:Hfind.
  - exists w. apply find_some in Hfind. destruct Hfind as [Hin Hpred].
    apply andb_true_iff in Hpred. destruct Hpred as [Hu _].
    apply String.eqb_eq in Hu. repeat split; assumption.
  - eexists. split; [reflexivity|]. split; [|reflexivity].
    cbn [snd set_wallets wallets]. apply in_or_app. right. left. reflexivity.
Qed.

(** Once a balance was asked for, the user has a wallet: listing the user's
    wallets afterwards never fails and shows the wallet that was returned. *)
Theorem wallets_are_listed_after_getWalletBalance
    (request : GetWalletBalanceRequest) (db : WalletDb) :
  exists (entity : WalletEntity) (db' : WalletDb) (entities : list WalletEntity),
    WalletService.getWalletBalance request db = (Ok entity, db') /\
    WalletService.getAllUserWallets {| ga_userId := gb_userId request |} db' =
      Ok entities /\
    In entity entities.
Proof.
  destruct (getWalletBalance_creates_missing_wallet_aux request db)
    as (w & Hans & Hin & Hu).
  set (db' := snd (WalletService.getWalletBalance request db)) in *.
  assert (Hmine : In w (filter (fun x => String.eqb (Wallet.userId x)
                                                     (gb_userId request))
                               (wallets db'))).
  { apply filter_In. split; [exact Hin|]. apply String.eqb_eq. exact Hu. }
  exists (WalletService.createWalletEntity w), db'.
  unfold WalletService.getAllUserWallets. cbn [ga_userId].
  destruct (filter _ (wallets db')) as [|w0 rest] eqn:Hf.
  - destruct Hmine.
  - eexists. split; [exact Hans|]. split; [reflexivity|].
    apply in_map. exact Hmine.
Qed.

Lemma getAllUserWallets_witness :
  In (WalletService.createWalletEntity Fixture.usd1000)
     (match WalletService.getAllUserWallets {| ga_userId := "alice" |}
              (Fixture.dbOf [Fixture.usd1000]) with
      | Ok entities => entities
      | Err _ => []
      end).
Proof.
  pose proof (getAllUserWallets_lists_the_users_wallets
                {| ga_userId := "alice" |} (Fixture.dbOf [Fixture.usd1000]))
    as H.
  cbv zeta in H.
  destruct (WalletService.getAllUserWallets _ _) as [entities|e].
  - destruct H as (_ & _ & _ & H). apply H; [left|]; reflexivity.
  - destruct H as [_ H]. exfalso.
    apply (H Fixture.usd1000); [left|]; reflexivity.
Defined.

Lemma findById_saveRow_other {R : Type} (key : R -> nat) (tbl : list R)
    (r : R) (j : nat) :
  In (key r) (map key tbl) -> key r <> j ->
  findById key j (saveRow key r tbl) = findById key j tbl.
Proof.
  intros Hin Hj. rewrite (saveRow_stored key _ _ Hin).
  unfold findById, updateById. clear Hin.
  induction tbl as [|x tbl IH]; simpl; [reflexivity|].
  destruct (Nat.eqb_spec (key x) (key r)) as [E|E].
  - destruct (Nat.eqb_spec (key r) j); [contradiction|].
    destruct (Nat.eqb_spec (key x) j); [congruence|]. exact IH.
  - destruct (Nat.eqb (key x) j); [reflexivity|exact IH].
Qed.

(** A purchase that commits is the two [post]s of [buyForex_cases]. *)
Lemma buyForex_committed (request : BuyForexRequest) (env : WalletEnv)
    (db db' : WalletDb) (res : BuyForexResponse) :
  WalletService.buyForex request env db = (Ok res, db') ->
  exists (baseWallet : Wallet.t) (exchangeRate : Decimal.t),
    findOneWhere (firstRow env (bf_baseCurrency request))
      (fun w => String.eqb (Wallet.currency w) (bf_baseCurrency request))
      (wallets db) = Some baseWallet /\
    Decimal.lessThan (Wallet.balance baseWallet) (bf_amount request) = false /\
    db' =
    match findOneWhere (firstRow env (bf_targetCurrency request))
            (fun w => String.eqb (Wallet.currency w)
                                 (bf_targetCurrency request))
            (wallets db) with
    | Some targetWallet =>
        post targetWallet TransactionType.CREDIT
          (Decimal.mul (bf_amount request) exchangeRate)
          "Credit for forex purchase"
          (post baseWallet TransactionType.DEBIT (bf_amount request)
                "Debit for forex purchase" db)
    | None =>
        post (newWallet (bf_userId request) (bf_targetCurrency request) db)
          TransactionType.CREDIT
          (Decimal.mul (bf_amount request) exchangeRate)
          "Credit for forex purchase"
          (post baseWallet TransactionType.DEBIT (bf_amount request)
                "Debit for forex purchase"
                (addWallet (bf_userId request) (bf_targetCurrency request) db))
    end.
Proof.
  intros Hok.
  destruct (buyForex_cases request env db)
    as [Hsame|(baseWallet & exchangeRate & Hbase & Hfund & _ & Hdb)].
  - exfalso. rewrite Hok in Hsame. cbn [snd] in Hsame. subst db'.
    apply buyForex_success in Hok.
    destruct Hok as (r & d & c & _ & _ & _ & Hledger & _).
    apply (f_equal (@List.length _)) in Hledger.
    rewrite length_app in Hledger. simpl in Hledger. lia.
  - exists baseWallet, exchangeRate. rewrite Hok in Hdb. auto.
Qed.

(** A purchase between two currencies that commits never overdraws: the
    wallet it debited is stored with a balance that is not negative. *)
Theorem purchase_never_overdraws
    (request : BuyForexRequest) (env : WalletEnv) (db db' : WalletDb)
    (res : BuyForexResponse) :
  uniqueIds db ->
  bf_baseCurrency request <> bf_targetCurrency request ->
  WalletService.buyForex request env db = (Ok res, db') ->
  exists baseWallet debited : Wallet.t,
    WalletService.findBaseWalletOrFail env (bf_baseCurrency request) db =
      Ok baseWallet /\
    findById Wallet.id (Wallet.id baseWallet) (wallets db') = Some debited /\
    Wallet.balance debited =
      Decimal.minus (Wallet.balance baseWallet) (bf_amount request) /\
    Decimal.isNeg (Wallet.balance debited) = false.
Proof.
  intros Hids Htwo Hok.
  destruct (buyForex_committed request env db db' res Hok)
    as (baseWallet & exchangeRate & Hbase & Hfund & Hdb).
  exists baseWallet,
    (Wallet.with_balance
       (Decimal.minus (Wallet.balance baseWallet) (bf_amount request))
       baseWallet).
  split; [unfold WalletService.findBaseWalletOrFail; rewrite Hbase;
          reflexivity|].
  split; [|split; [reflexivity|]].
  2: { cbn [Wallet.with_balance Wallet.balance]. apply minus_not_negative.
       exact Hfund. }
  apply findOneWhere_some in Hbase. destruct Hbase as [Hbase Hbc].
  apply String.eqb_eq in Hbc.
  assert (Hdebit : forall d, In baseWallet (wallets d) ->
            findById Wallet.id (Wallet.id baseWallet)
              (wallets (post baseWallet TransactionType.DEBIT (bf_amount request)
                          "Debit for forex purchase" d)) =
            Some (Wallet.with_balance
                    (Decimal.minus (Wallet.balance baseWallet) (bf_amount request))
                    baseWallet)).
  { intros d Hd. unfold post. cbv zeta. cbn [wallets].
    apply (findById_saved Wallet.id (wallets d)
             (Wallet.with_balance _ baseWallet)).
    cbn [Wallet.with_balance Wallet.id]. apply in_map. exact Hd. }
  assert (Hcredit : forall t a d, Wallet.id t <> Wallet.id baseWallet ->
            In (Wallet.id t) (map Wallet.id (wallets d)) ->
            findById Wallet.id (Wallet.id baseWallet)
              (wallets (post t TransactionType.CREDIT a
                          "Credit for forex purchase" d)) =
            findById Wallet.id (Wallet.id baseWallet) (wallets d)).
  { intros t a d Hne Hd. unfold post. cbv zeta. cbn [wallets].
    apply findById_saveRow_other; cbn [Wallet.with_balance Wallet.id];
      assumption. }
  subst db'.
  destruct (findOneWhere (firstRow env (bf_targetCurrency request))
              (fun w => String.eqb (Wallet.currency w)
                                   (bf_targetCurrency request))
              (wallets db)) as [targetWallet|] eqn:Htarget.
  - apply findOneWhere_some in Htarget. destruct Htarget as [Htarget Htc].
    apply String.eqb_eq in Htc.
    rewrite Hcredit; [apply Hdebit; exact Hbase| |].
    + intros Hk.
      pose proof (unique_row Wallet.id (wallets db) targetWallet baseWallet
                    Hids Htarget Hbase Hk) as E.
      subst targetWallet. congruence.
    + rewrite (post_wallets _ _ _ _ _ (In_stored _ db Hbase)).
      rewrite (map_updateById Wallet.id Wallet.id)
        by (intros r _ Hk; cbn; congruence).
      apply in_map. exact Htarget.
  - assert (Hbase1 : In baseWallet
                       (wallets (addWallet (bf_userId request)
                                   (bf_targetCurrency request) db))).
    { unfold addWallet. cbn [wallets set_wallets]. apply in_or_app. left.
      exact Hbase. }
    rewrite Hcredit; [apply Hdebit; exact Hbase1| |].
    + cbn [newWallet Wallet.id]. intros Hk.
      apply (freshId_not_stored Wallet.id (wallets db)). rewrite Hk.
      apply in_map. exact Hbase.
    + rewrite (post_wallets _ _ _ _ _ (In_stored _ _ Hbase1)).
      rewrite (map_updateById Wallet.id Wallet.id)
        by (intros r _ Hk; cbn; congruence).
      unfold addWallet. cbn [wallets set_wallets]. rewrite map_app.
      apply in_or_app. right. left. reflexivity.
Qed.

Lemma purchase_never_overdraws_witness :
  exists baseWallet debited : Wallet.t,
    WalletService.findBaseWalletOrFail
      (Fixture.walletEnvOf Fixture.rate_1_10 None) "USD"
      (Fixture.dbOf [Fixture.usd1000]) = Ok baseWallet /\
    findById Wallet.id (Wallet.id baseWallet)
      (wallets (snd (WalletService.buyForex
                       {| bf_userId := "alice"; bf_baseCurrency := "USD";
                          bf_targetCurrency := "EUR";
                          bf_amount := Decimal.dec 1000 0 |}
                       (Fixture.walletEnvOf Fixture.rate_1_10 None)
                       (Fixture.dbOf [Fixture.usd1000])))) = Some debited /\
    Decimal.isNeg (Wallet.balance debited) = false.
Proof.
  destruct (purchase_never_overdraws
              {| bf_userId := "alice"; bf_baseCurrency := "USD";
                 bf_targetCurrency := "EUR"; bf_amount := Decimal.dec 1000 0 |}
              (Fixture.walletEnvOf Fixture.rate_1_10 None)
              (Fixture.dbOf [Fixture.usd1000])
              (snd (WalletService.buyForex
                      {| bf_userId := "alice"; bf_baseCurrency := "USD";
                         bf_targetCurrency := "EUR";
                         bf_amount := Decimal.dec 1000 0 |}
                      (Fixture.walletEnvOf Fixture.rate_1_10 None)
                      (Fixture.dbOf [Fixture.usd1000])))
              {| br_message := "success"; br_success := true;
                 br_exchangeRate := Fixture.rate_1_10;
                 br_targetAmount := Decimal.dec 1100 0 |})
    as (b & d & H1 & H2 & _ & H4).
  - repeat constructor. simpl. tauto.
  - discriminate.
  - reflexivity.
  - exists b, d. repeat split; assumption.
Defined.

(** ** Funding and withdrawing through the transaction service *)





(** Withdrawing more than the wallet holds is a 400: the call throws
    BadRequestException, the wallets are as before, and the failure e-mail is
    sent. *)
Theorem overdraft_is_a_bad_request
    (env : Env) (user : GrpcUser) (payload : WalletPayload) (st : State)
    (w : Wallet.t) :
  transport env = None ->
  find (fun x => Nat.eqb (Wallet.id x) (wp_walletId payload)
                 && String.eqb (Wallet.userId x) (user_id user))
       (wallets (walletDb st)) = Some w ->
  Decimal.lessThan (Wallet.balance w) (wp_decimal payload) = true ->
  exists m : string,
    TransactionsService.withdrawWallet env user payload st =
    (Thrown (BadRequestException m),
     set_notifications
       (notifications st ++
        [{| html := ""; text := "Wallet withdrawal was unsucessful";
            subject := "Wallet withdrawal unsucessful";
            to := user_email user |}]) st).
Proof.
  intros Htransport Hfind Hless. eexists.
  unfold TransactionsService.withdrawWallet,
    TransactionsService.processWalletWithdrawal, walletClient_withdrawWallet,
    WalletService.withdrawWallet, WalletService.handleWalletTransaction.
  rewrite Htransport. cbn [TransactionsService.walletRequestOf wr_walletId
                             wr_userId wr_amount].
  rewrite Hfind. unfold WalletService.validateSufficientFund. rewrite Hless.
  unfold TransactionsService.notifyUser, set_notifications, set_walletDb.
  destruct st. reflexivity.
Qed.

Lemma overdraft_is_a_bad_request_witness :
  exists m : string,
  fst (TransactionsService.withdrawWallet (Fixture.rateIs Fixture.rate_1_10)
         {| user_id := "alice"; user_email := "user@example.com" |}
         {| wp_walletId := 0; wp_amount := "100";
            wp_decimal := Decimal.dec 100 0 |}
         (Fixture.stateOf [Fixture.usd50])) =
  Thrown (BadRequestException m).
Proof.
  destruct (overdraft_is_a_bad_request (Fixture.rateIs Fixture.rate_1_10)
              {| user_id := "alice"; user_email := "user@example.com" |}
              {| wp_walletId := 0; wp_amount := "100";
                 wp_decimal := Decimal.dec 100 0 |}
              (Fixture.stateOf [Fixture.usd50]) Fixture.usd50
              eq_refl eq_refl eq_refl) as [m Hm].
  exists m. rewrite Hm. reflexivity.
Defined.

(** ** Executions of an order *)


(** An execution changes no order but its own, and a retry job no order but
    the one it names. *)
Theorem other_orders_are_untouched
    (maxRetries : nat) (env : Env) (forexOrder : ForexOrder.t)
    (job : RetryOrderEvent) (st : State) (other : nat) :
  (other <> ForexOrder.id forexOrder ->
   findById ForexOrder.id other
     (forexOrders (snd (TransactionsService.processForexPurchase
                          env forexOrder st))) =
   findById ForexOrder.id other (forexOrders st)) /\
  (other <> orderId job ->
   findById ForexOrder.id other
     (forexOrders (RetryOrderConsumer.handleRetry maxRetries env job st)) =
   findById ForexOrder.id other (forexOrders st)).
Proof.
  assert (Hexec : forall (o : ForexOrder.t) (s : State),
             other <> ForexOrder.id o ->
             findById ForexOrder.id other
               (forexOrders (snd (TransactionsService.processForexPurchase
                                    env o s))) =
             findById ForexOrder.id other (forexOrders s)).
  { intros o s Hne.
    destruct (walletClient_buyForex env (TransactionsService.requestOf o)
                (walletDb s)) as [[res|err] db'] eqn:Hcall.
    - destruct (processForexPurchase_completed env o s res db' Hcall)
        as (email & _ & ->).
      cbn [forexOrders].
      rewrite (findById_updateById ForexOrder.id) by reflexivity.
      destruct (Nat.eqb_spec (ForexOrder.id o) other); [congruence|reflexivity].
    - destruct (TransactionsService.hardFailOf (code err)) eqn:Eh.
      + rewrite (processForexPurchase_permanent env o s err db' Hcall Eh).
        cbn [forexOrders].
        rewrite (findById_updateById ForexOrder.id) by reflexivity.
        destruct (Nat.eqb_spec (ForexOrder.id o) other);
          [congruence|reflexivity].
      + rewrite (processForexPurchase_retry env o s err db' Hcall Eh).
        reflexivity. }
  split; [apply Hexec|].
  intros Hne. unfold RetryOrderConsumer.handleRetry.
  set (st1 := set_forexOrders _ st).
  assert (H1 : findById ForexOrder.id other (forexOrders st1) =
               findById ForexOrder.id other (forexOrders st)).
  { unfold st1. cbn [forexOrders set_forexOrders].
    rewrite (findById_updateById ForexOrder.id) by reflexivity.
    destruct (Nat.eqb_spec (orderId job) other); [congruence|reflexivity]. }
  destruct (findById ForexOrder.id (orderId job) (forexOrders st1))
    as [o|] eqn:Ho; [|exact H1].
  destruct (findById ForexTransaction.id (transactionId job)
              (forexTransactions st1)) as [x|]; [|exact H1].
  apply (findById_key ForexOrder.id) in Ho. destruct Ho as [Hoid _].
  destruct (Nat.leb maxRetries (ForexOrder.retryAttempts o)).
  - unfold TransactionsService.failOrder.
    cbn [snd forexOrders TransactionsService.notifyUser set_notifications
         set_forexOrders set_forexTransactions].
    rewrite (findById_updateById ForexOrder.id) by reflexivity.
    destruct (Nat.eqb_spec (ForexOrder.id o) other); [congruence|exact H1].
  - rewrite Hexec by congruence. exact H1.
Qed.

Lemma other_orders_are_untouched_witness :
  let s := snd (TransactionsService.buyForex Fixture.rateDown
                  (Fixture.buy "bob" (Decimal.dec 70 0))
                  (snd (TransactionsService.buyForex Fixture.rateDown
                          (Fixture.buy "alice" (Decimal.dec 100 0))
                          (Fixture.stateOf [Fixture.usd1000])))) in
  let bobs := ForexOrder.mk 1 "bob" "user@example.com" OrderType.BUY "USD" "EUR"
                (Decimal.dec 70 0) OrderStatus.PENDING 0 None None in
  let job := {| orderId := 0; transactionId := 0; errMessage := "";
                errCode := status.ABORTED |} in
  let executed := snd (TransactionsService.processForexPurchase
                         (Fixture.rateIs Fixture.rate_1_10)
                         Fixture.pendingOrder s) in
  let retried := RetryOrderConsumer.handleRetry 3
                   (Fixture.rateIs Fixture.rate_1_10) job s in
  findById ForexOrder.id 1 (forexOrders s) = Some bobs /\
  (findById ForexOrder.id 1 (forexOrders executed) = Some bobs /\
   option_map ForexOrder.status (findById ForexOrder.id 0 (forexOrders executed))
     = Some OrderStatus.COMPLETED) /\
  (findById ForexOrder.id 1 (forexOrders retried) = Some bobs /\
   option_map ForexOrder.status (findById ForexOrder.id 0 (forexOrders retried))
     = Some OrderStatus.COMPLETED /\
   option_map ForexOrder.retryAttempts
     (findById ForexOrder.id 0 (forexOrders retried)) = Some 1).
Proof.
  cbv zeta.
  set (s := snd (TransactionsService.buyForex Fixture.rateDown
                   (Fixture.buy "bob" (Decimal.dec 70 0)) _)).
  pose proof (other_orders_are_untouched 3 (Fixture.rateIs Fixture.rate_1_10)
                Fixture.pendingOrder
                {| orderId := 0; transactionId := 0; errMessage := "";
                   errCode := status.ABORTED |} s 1) as [Hexec Hretry].
  split; [reflexivity|]. split.
  - split; [|reflexivity]. rewrite Hexec; [reflexivity|discriminate].
  - split; [|split; reflexivity]. rewrite Hretry; [reflexivity|discriminate].
Defined.

(** ** Retry jobs *)

Lemma set_forexOrders_same (st : State) : set_forexOrders (forexOrders st) st = st.
Proof. destruct st. reflexivity. Qed.

(** A job that names no stored order changes nothing.  A job whose order is
    stored but whose transaction is not only counts as a retry: the order
    keeps its status, nothing is executed, notified or enqueued. *)
Theorem stale_jobs_are_dropped
    (maxRetries : nat) (env : Env) (job : RetryOrderEvent) (st : State) :
  (findById ForexOrder.id (orderId job) (forexOrders st) = None ->
   RetryOrderConsumer.handleRetry maxRetries env job st = st) /\
  (forall o : ForexOrder.t,
      findById ForexOrder.id (orderId job) (forexOrders st) = Some o ->
      findById ForexTransaction.id (transactionId job) (forexTransactions st) =
        None ->
      let st' := RetryOrderConsumer.handleRetry maxRetries env job st in
      findById ForexOrder.id (orderId job) (forexOrders st') =
        Some (ForexOrder.with_retryAttempts (S (ForexOrder.retryAttempts o)) o) /\
      walletDb st' = walletDb st /\
      forexTransactions st' = forexTransactions st /\
      retryQueue st' = retryQueue st /\
      notifications st' = notifications st).
Proof.
  split.
  - intros Hnone. unfold RetryOrderConsumer.handleRetry.
    rewrite (updateById_absent ForexOrder.id) by exact Hnone.
    rewrite set_forexOrders_same, Hnone. reflexivity.
  - intros o Ho Hx st'. unfold st', RetryOrderConsumer.handleRetry.
    cbn [forexOrders forexTransactions set_forexOrders].
    rewrite (findById_updateById ForexOrder.id) by reflexivity.
    rewrite Nat.eqb_refl, Ho, Hx. cbn [option_map forexOrders set_forexOrders].
    rewrite (findById_updateById ForexOrder.id) by reflexivity.
    rewrite Nat.eqb_refl, Ho. repeat split.
Qed.

Lemma stale_jobs_are_dropped_witness :
  RetryOrderConsumer.handleRetry 3 (Fixture.rateIs Fixture.rate_1_10)
    {| orderId := 7; transactionId := 0; errMessage := "";
       errCode := status.ABORTED |}
    (Fixture.pendingState [Fixture.usd1000]) =
  Fixture.pendingState [Fixture.usd1000] /\
  walletDb (RetryOrderConsumer.handleRetry 3 (Fixture.rateIs Fixture.rate_1_10)
              {| orderId := 0; transactionId := 5; errMessage := "";
                 errCode := status.ABORTED |}
              (Fixture.pendingState [Fixture.usd1000])) =
  Fixture.dbOf [Fixture.usd1000].
Proof.
  split.
  - apply (proj1 (stale_jobs_are_dropped 3 (Fixture.rateIs Fixture.rate_1_10)
                    {| orderId := 7; transactionId := 0; errMessage := "";
                       errCode := status.ABORTED |}
                    (Fixture.pendingState [Fixture.usd1000]))).
    reflexivity.
  - apply (proj2 (stale_jobs_are_dropped 3 (Fixture.rateIs Fixture.rate_1_10)
                    {| orderId := 0; transactionId := 5; errMessage := "";
                       errCode := status.ABORTED |}
                    (Fixture.pendingState [Fixture.usd1000]))
             Fixture.pendingOrder eq_refl eq_refl).
Defined.

(** A job that brings the order to the limit fails it without executing it:
    no wallet call, no new ForexTransaction; the order and the transaction of
    the job are FAILED with the error of the job, the retry is counted, the
    failure e-mail is sent and nothing is enqueued. *)
Theorem job_at_the_limit_fails_the_order
    (maxRetries : nat) (env : Env) (job : RetryOrderEvent) (st : State)
    (o : ForexOrder.t) (x : ForexTransaction.t) :
  findById ForexOrder.id (orderId job) (forexOrders st) = Some o ->
  findById ForexTransaction.id (transactionId job) (forexTransactions st) =
    Some x ->
  maxRetries <= S (ForexOrder.retryAttempts o) ->
  let st' := RetryOrderConsumer.handleRetry maxRetries env job st in
  walletDb st' = walletDb st /\
  List.length (forexTransactions st') = List.length (forexTransactions st) /\
  (exists o' : ForexOrder.t,
      findById ForexOrder.id (orderId job) (forexOrders st') = Some o' /\
      ForexOrder.status o' = OrderStatus.FAILED /\
      ForexOrder.retryAttempts o' = S (ForexOrder.retryAttempts o) /\
      ForexOrder.errorStatus o' = Some (errCode job) /\
      ForexOrder.errorMessage o' = Some (errMessage job)) /\
  (exists x' : ForexTransaction.t,
      findById ForexTransaction.id (transactionId job) (forexTransactions st') =
        Some x' /\
      ForexTransaction.status x' = TransactionStatus.FAILED /\
      ForexTransaction.errorStatus x' = Some (errCode job)) /\
  (exists email : NotificationEmailEvent,
      notifications st' = notifications st ++ [email] /\
      subject email = "Forex purchase failed" /\
      to email = ForexOrder.userEmail o) /\
  retryQueue st' = retryQueue st.
Proof.
  intros Ho Hx Hlimit st'. unfold st', RetryOrderConsumer.handleRetry.
  cbn [forexOrders forexTransactions set_forexOrders].
  rewrite (findById_updateById ForexOrder.id) by reflexivity.
  rewrite Nat.eqb_refl, Ho, Hx. cbn [option_map ForexOrder.retryAttempts
                                       ForexOrder.with_retryAttempts].
  destruct (Nat.leb_spec maxRetries (S (ForexOrder.retryAttempts o)))
    as [_|Hgt]; [|lia].
  pose proof (findById_key ForexOrder.id _ _ _ Ho) as [Hoid _].
  pose proof (findById_key ForexTransaction.id _ _ _ Hx) as [Hxid _].
  unfold TransactionsService.failOrder.
  cbn [snd TransactionsService.notifyUser set_notifications set_forexOrders
       set_forexTransactions walletDb forexOrders forexTransactions retryQueue
       notifications ForexOrder.with_retryAttempts ForexOrder.id].
  rewrite Hoid, Hxid.
  split; [reflexivity|]. split; [apply length_updateById|].
  split; [|split; [|split; [|reflexivity]]].
  - eexists. split.
    + rewrite !(findById_updateById ForexOrder.id) by reflexivity.
      rewrite Nat.eqb_refl, Ho. reflexivity.
    + repeat split.
  - eexists. split.
    + rewrite (findById_updateById ForexTransaction.id) by reflexivity.
      rewrite Nat.eqb_refl, Hx. reflexivity.
    + repeat split.
  - eexists. split; [reflexivity|]. split; reflexivity.
Qed.

Lemma job_at_the_limit_witness :
  let st := set_forexTransactions
              [initiatedTxn Fixture.pendingOrder (Fixture.stateOf [])]
              (Fixture.pendingState [Fixture.usd1000]) in
  let st' := RetryOrderConsumer.handleRetry 1 (Fixture.rateIs Fixture.rate_1_10)
               {| orderId := 0; transactionId := 0; errMessage := "down";
                  errCode := status.UNAVAILABLE |} st in
  walletDb st' = walletDb st /\
  map ForexOrder.status (forexOrders st') = [OrderStatus.FAILED].
Proof.
  cbv zeta.
  destruct (job_at_the_limit_fails_the_order 1
              (Fixture.rateIs Fixture.rate_1_10)
              {| orderId := 0; transactionId := 0; errMessage := "down";
                 errCode := status.UNAVAILABLE |}
              (set_forexTransactions
                 [initiatedTxn Fixture.pendingOrder (Fixture.stateOf [])]
                 (Fixture.pendingState [Fixture.usd1000]))
              Fixture.pendingOrder
              (initiatedTxn Fixture.pendingOrder (Fixture.stateOf []))
              eq_refl eq_refl) as (Hw & _).
  - simpl. lia.
  - split; [exact Hw|reflexivity].
Defined.




(** An execution rewrites at most the status and the error of one order. *)
Lemma processForexPurchase_keeps_orders (env : Env) (forexOrder : ForexOrder.t)
    (st : State) (oid : nat) (o : ForexOrder.t) :
  findById ForexOrder.id oid (forexOrders st) = Some o ->
  exists o' : ForexOrder.t,
    findById ForexOrder.id oid
      (forexOrders (snd (TransactionsService.processForexPurchase
                           env forexOrder st))) = Some o' /\
    ForexOrder.retryAttempts o' = ForexOrder.retryAttempts o /\
    sameRequest o o'.
Proof.
  intros Ho.
  assert (Hupd : forall f : ForexOrder.t -> ForexOrder.t,
             (forall r, ForexOrder.id (f r) = ForexOrder.id r) ->
             (forall r, ForexOrder.retryAttempts (f r) =
                        ForexOrder.retryAttempts r) ->
             (forall r, sameRequest r (f r)) ->
             exists o' : ForexOrder.t,
               findById ForexOrder.id oid
                 (updateById ForexOrder.id (ForexOrder.id forexOrder) f
                    (forexOrders st)) = Some o' /\
               ForexOrder.retryAttempts o' = ForexOrder.retryAttempts o /\
               sameRequest o o').
  { intros f Hid Hr Hs.
    rewrite (findById_updateById ForexOrder.id) by exact Hid. rewrite Ho.
    destruct (Nat.eqb (ForexOrder.id forexOrder) oid).
    - exists (f o). split; [reflexivity|]. split; [apply Hr|apply Hs].
    - exists o. split; [reflexivity|]. split; [reflexivity|].
      repeat split. }
  destruct (walletClient_buyForex env
              (TransactionsService.requestOf forexOrder) (walletDb st))
    as [[res|err] db'] eqn:Hcall.
  - destruct (processForexPurchase_completed env forexOrder st res db' Hcall)
      as (email & _ & ->).
    cbn [forexOrders]. apply Hupd; intros r; try reflexivity. repeat split.
  - destruct (TransactionsService.hardFailOf (code err)) eqn:Eh.
    + rewrite (processForexPurchase_permanent env forexOrder st err db'
                 Hcall Eh).
      cbn [forexOrders]. apply Hupd; intros r; try reflexivity. repeat split.
    + rewrite (processForexPurchase_retry env forexOrder st err db' Hcall Eh).
      cbn [forexOrders]. exists o. split; [exact Ho|].
      split; [reflexivity|]. repeat split.
Qed.

(** [retryAttempts] counts the retry jobs of an order: an execution never
    changes it, a retry job of a stored order raises it by exactly one,
    whatever the job then does.  Neither changes what the user asked for. *)
Theorem retryAttempts_count_the_jobs
    (maxRetries : nat) (env : Env) (forexOrder : ForexOrder.t)
    (job : RetryOrderEvent) (st : State) :
  (forall (oid : nat) (o : ForexOrder.t),
      findById ForexOrder.id oid (forexOrders st) = Some o ->
      exists o' : ForexOrder.t,
        findById ForexOrder.id oid
          (forexOrders (snd (TransactionsService.processForexPurchase
                               env forexOrder st))) = Some o' /\
        ForexOrder.retryAttempts o' = ForexOrder.retryAttempts o /\
        sameRequest o o') /\
  (forall o : ForexOrder.t,
      findById ForexOrder.id (orderId job) (forexOrders st) = Some o ->
      exists o' : ForexOrder.t,
        findById ForexOrder.id (orderId job)
          (forexOrders (RetryOrderConsumer.handleRetry maxRetries env job st)) =
          Some o' /\
        ForexOrder.retryAttempts o' = S (ForexOrder.retryAttempts o) /\
        sameRequest o o').
Proof.
  split; [intros oid o; apply processForexPurchase_keeps_orders|].
  intros o Ho. unfold RetryOrderConsumer.handleRetry.
  set (st1 := set_forexOrders _ st).
  assert (H1 : findById ForexOrder.id (orderId job) (forexOrders st1) =
               Some (ForexOrder.with_retryAttempts
                       (S (ForexOrder.retryAttempts o)) o)).
  { unfold st1. cbn [forexOrders set_forexOrders].
    rewrite (findById_updateById ForexOrder.id) by reflexivity.
    rewrite Nat.eqb_refl, Ho. reflexivity. }
  rewrite H1.
  destruct (findById ForexTransaction.id (transactionId job)
              (forexTransactions st1)) as [x|].
  - destruct (Nat.leb maxRetries _).
    + unfold TransactionsService.failOrder.
      cbn [snd forexOrders TransactionsService.notifyUser set_notifications
           set_forexOrders set_forexTransactions].
      rewrite (findById_updateById ForexOrder.id) by reflexivity.
      rewrite H1.
      pose proof (findById_key ForexOrder.id _ _ _ Ho) as [Hoid _].
      cbn [ForexOrder.id ForexOrder.with_retryAttempts]. rewrite Hoid.
      rewrite Nat.eqb_refl. eexists. split; [reflexivity|].
      split; [reflexivity|]. repeat split.
    + destruct (processForexPurchase_keeps_orders env
                  (ForexOrder.with_retryAttempts
                     (S (ForexOrder.retryAttempts o)) o) st1 (orderId job) _ H1)
        as (o' & Ho' & Hr & Hs).
      exists o'. split; [exact Ho'|]. split; [exact Hr|exact Hs].
  - eexists. split; [exact H1|]. split; [reflexivity|]. repeat split.
Qed.

Lemma retryAttempts_count_the_jobs_witness :
  map ForexOrder.retryAttempts
    (forexOrders (snd (TransactionsService.processForexPurchase
                         Fixture.rateDown Fixture.pendingOrder
                         (Fixture.pendingState [Fixture.usd1000])))) = [0] /\
  (exists o' : ForexOrder.t,
      findById ForexOrder.id 0
        (forexOrders (RetryOrderConsumer.handleRetry 3 Fixture.rateDown
                        {| orderId := 0; transactionId := 0; errMessage := "";
                           errCode := status.ABORTED |}
                        (Fixture.pendingState [Fixture.usd1000]))) = Some o' /\
      ForexOrder.retryAttempts o' = 1 /\
      sameRequest Fixture.pendingOrder o').
Proof.
  split; [reflexivity|].
  apply (proj2 (retryAttempts_count_the_jobs 3 Fixture.rateDown
                  Fixture.pendingOrder
                  {| orderId := 0; transactionId := 0; errMessage := "";
                     errCode := status.ABORTED |}
                  (Fixture.pendingState [Fixture.usd1000]))
           Fixture.pendingOrder eq_refl).
Defined.

(** ** The auth application *)

(** A user who created a wallet sees it: while the wallet service can be
    reached, creating a wallet never throws and the list of the user's wallets
    asked for afterwards contains the wallet that was returned; a user without
    any wallet gets a NotFoundException, not a server error. *)
Theorem created_wallet_is_listed
    (env : Env) (userId currency : string) (db : WalletDb) :
  transport env = None ->
  (exists (entity : WalletEntity) (db' : WalletDb)
          (entities : list WalletEntity),
      UsersService.createUserWallet env userId currency db =
        (Returned entity, db') /\
      we_userId entity = userId /\
      we_currency entity = currency /\
      UsersService.getAllUserWallets env userId db' = Returned entities /\
      In entity entities) /\
  ((forall w, In w (wallets db) -> Wallet.userId w <> userId) ->
   exists m : string,
     UsersService.getAllUserWallets env userId db =
       Thrown (NotFoundException m)).
Proof.
  intros Htransport. split.
  - unfold UsersService.createUserWallet, UsersService.getAllUserWallets,
      walletClient_createWallet, walletClient_getAllUserWallets.
    rewrite Htransport.
    assert (Hw : exists w : Wallet.t,
               WalletService.createWallet
                 {| cw_userId := userId; cw_currency := currency |} db =
               (Ok (WalletService.createWalletEntity w),
                snd (WalletService.createWallet
                       {| cw_userId := userId; cw_currency := currency |} db)) /\
               In w (wallets (snd (WalletService.createWallet
                       {| cw_userId := userId; cw_currency := currency |} db))) /\
               Wallet.userId w = userId /\ Wallet.currency w = currency).
    { unfold WalletService.createWallet. cbn [cw_userId cw_currency].
      destruct (find _ (wallets db)) as [w|] eqn:Hfind.
      - exists w. apply find_some in Hfind. destruct Hfind as [Hin Hpred].
        apply andb_true_iff in Hpred. destruct Hpred as [Hu Hc].
        apply String.eqb_eq in Hu, Hc. repeat split; assumption.
      - eexists. split; [reflexivity|]. split; [|split; reflexivity].
        cbn [snd set_wallets wallets]. apply in_or_app. right. left.
        reflexivity. }
    destruct Hw as (w & Hans & Hin & Hu & Hc). rewrite Hans.
    set (db' := snd (WalletService.createWallet _ db)) in *.
    assert (Hmine : In w (filter (fun x => String.eqb (Wallet.userId x) userId)
                                 (wallets db'))).
    { apply filter_In. split; [exact Hin|]. apply String.eqb_eq. exact Hu. }
    exists (WalletService.createWalletEntity w), db'.
    unfold WalletService.getAllUserWallets. cbn [ga_userId].
    destruct (filter _ (wallets db')) as [|w0 rest] eqn:Hf; [destruct Hmine|].
    eexists. split; [reflexivity|]. split; [exact Hu|]. split; [exact Hc|].
    split; [reflexivity|]. apply in_map. exact Hmine.
  - intros Hnone.
    unfold UsersService.getAllUserWallets, walletClient_getAllUserWallets,
      WalletService.getAllUserWallets.
    rewrite Htransport. cbn [ga_userId].
    rewrite filter_nothing.
    + eexists. reflexivity.
    + intros w Hw. apply String.eqb_neq. apply Hnone. exact Hw.
Qed.

Lemma created_wallet_is_listed_witness :
  exists (entity : WalletEntity) (db' : WalletDb)
         (entities : list WalletEntity),
    UsersService.createUserWallet (Fixture.rateIs Fixture.rate_1_10)
      "alice" "EUR" (Fixture.dbOf [Fixture.usd1000]) = (Returned entity, db') /\
    we_userId entity = "alice" /\
    we_currency entity = "EUR" /\
    UsersService.getAllUserWallets (Fixture.rateIs Fixture.rate_1_10)
      "alice" db' = Returned entities /\
    In entity entities.
Proof.
  apply (proj1 (created_wallet_is_listed (Fixture.rateIs Fixture.rate_1_10)
                  "alice" "EUR" (Fixture.dbOf [Fixture.usd1000]) eq_refl)).
Defined.

(** Signing up never gives two users one e-mail address or one id: a second
    user with a stored address is refused and nothing is stored; otherwise
    exactly one user is appended, under a fresh id, with the address and the
    password hash given. *)
Theorem emails_stay_unique
    (email password : string) (users : list Users.t) :
  NoDup (map Users.email users) ->
  NoDup (map Users.id users) ->
  let '(created, users') :=
    UsersService.createBasicUserOrFail email password users in
  NoDup (map Users.email users') /\
  NoDup (map Users.id users') /\
  match created with
  | None => In email (map Users.email users) /\ users' = users
  | Some user =>
      ~ In email (map Users.email users) /\
      users' = users ++ [user] /\
      Users.email user = email /\ Users.password user = password
  end.
Proof.
  intros Hemails Hids. unfold UsersService.createBasicUserOrFail.
  destruct (existsb _ users) eqn:Hex.
  - split; [exact Hemails|]. split; [exact Hids|]. split; [|reflexivity].
    apply existsb_exists in Hex. destruct Hex as (u & Hin & Hu).
    apply String.eqb_eq in Hu. subst email. apply in_map. exact Hin.
  - assert (Hnew : ~ In email (map Users.email users)).
    { intros Hin. apply in_map_iff in Hin. destruct Hin as (u & Hu & Hin).
      assert (Htrue : existsb (fun x => String.eqb (Users.email x) email) users
                      = true).
      { apply existsb_exists. exists u. split; [exact Hin|].
        apply String.eqb_eq. exact Hu. }
      congruence. }
    rewrite !map_app. cbn [map Users.email Users.id].
    split; [apply NoDup_snoc; assumption|].
    split; [|repeat split; assumption].
    apply NoDup_snoc; [exact Hids|].
    intros Hin. apply in_map_iff in Hin. destruct Hin as (u & Hu & Hin).
    apply (key_lt_freshId Users.id) in Hin. lia.
Qed.

Lemma emails_stay_unique_witness :
  fst (UsersService.createBasicUserOrFail "a@example.com" "h2"
         [Users.mk 0 "a@example.com" "h1"]) = None /\
  NoDup (map Users.email
           (snd (UsersService.createBasicUserOrFail "b@example.com" "h2"
                   [Users.mk 0 "a@example.com" "h1"]))).
Proof.
  split; [reflexivity|].
  assert (He : NoDup (map Users.email [Users.mk 0 "a@example.com" "h1"])).
  { constructor; [simpl; tauto|constructor]. }
  assert (Hi : NoDup (map Users.id [Users.mk 0 "a@example.com" "h1"])).
  { constructor; [simpl; tauto|constructor]. }
  pose proof (emails_stay_unique "b@example.com" "h2"
                [Users.mk 0 "a@example.com" "h1"] He Hi) as H.
  destruct (UsersService.createBasicUserOrFail "b@example.com" "h2"
              [Users.mk 0 "a@example.com" "h1"]) as [created users'].
  exact (proj1 H).
Defined.

(** [verifyUser] does not read what argon2's comparison answers: the user
    stored under the e-mail address is returned whenever the comparison
    resolves, to true or to false.  It throws only when no user has the
    address or the comparison itself rejects. *)
Theorem verifyUser_does_not_read_the_comparison
    (argon2 : Argon2) (email password : string) (users : list Users.t)
    (user : Users.t) :
  AuthService.verifyUser argon2 email password users = Returned user <->
  UsersService.getUser (fun u => String.eqb (Users.email u) email) users =
    Some user /\
  exists matches : bool,
    verify argon2 (Users.password user) password = Some matches.
Proof.
  unfold AuthService.verifyUser.
  destruct (UsersService.getUser _ users) as [u|].
  - destruct (verify argon2 (Users.password u) password) as [b|] eqn:Hv.
    + split.
      * intros H. injection H as <-. split; [reflexivity|]. exists b. exact Hv.
      * intros [H _]. injection H as <-. reflexivity.
    + split; [discriminate|].
      intros [H [b Hb]]. injection H as <-. congruence.
  - split; [discriminate|]. intros [H _]. discriminate.
Qed.

Lemma verifyUser_accepts_a_mismatch :
  AuthService.verifyUser
    {| hash := fun plain => plain; verify := fun h plain => Some (String.eqb h plain) |}
    "a@example.com" "wrong" [Users.mk 0 "a@example.com" "right"] =
  Returned (Users.mk 0 "a@example.com" "right").
Proof.
  apply (proj2 (verifyUser_does_not_read_the_comparison
                  {| hash := fun plain => plain;
                     verify := fun h plain => Some (String.eqb h plain) |}
                  "a@example.com" "wrong" [Users.mk 0 "a@example.com" "right"]
                  (Users.mk 0 "a@example.com" "right"))).
  split; [reflexivity|]. exists false. reflexivity.
Defined.

(** ** The tables of the transaction service *)








